(** * lichess-puzzler validator: the request router

    A shallow embedding of the Express router of the puzzle validator
    (the default export that registers the six routes on [app]) and the
    properties of its review / render / login workflow.

    The router is glue between three collaborators that are imported by it
    but are not part of the embedded file: the document store ([env.mongo],
    from ./env), the OAuth client (./oauth) and the [Puzzle] type (./puzzle).
    They are taken as parameters: every statement about the router holds for
    every implementation of them.  A small in-memory store is defined at the
    end of the definitions to run the router on concrete requests. *)

From Stdlib Require Import ZArith List String Ascii Bool Lia.
From ExtLib Require Import Structures.Monad Structures.MonadExc.
Import ListNotations.
Import MonadNotation.
Local Open Scope string_scope.
Local Open Scope Z_scope.
Local Open Scope monad_scope.

(** ** JavaScript values used by the router *)

(** The empty string literal [''] and the characters that cannot be typed
    inside a literal here. *)
Definition empty : string := EmptyString.
Definition dq : string := String (ascii_of_nat 34) EmptyString.
Definition nl : string := String (ascii_of_nat 10) EmptyString.

(** A JavaScript string is held as the bytes of its UTF-8 encoding. *)

(** A JavaScript number as [parseInt] produces it: [NaN], an integer that a
    double holds exactly ([Num 0] is +0), the negative zero, or an
    infinity. *)
Inductive JsNumber : Type :=
| NaN
| Num (z : Z)
| MinusZero
| PlusInfinity
| MinusInfinity.

(** A value of [req.query]: Express (qs) yields [undefined] for a missing
    key, a string, an array or a nested object.  The source casts these
    with [as string], which converts nothing at run time. *)
#[warnings="-register-all"]
Inductive QVal : Type :=
| QUndefined
| QString (s : string)
| QArray (l : list QVal)
| QObject (fields : list (string * QVal)).

(** ToString, as [parseInt] applies it to its argument.  An array is joined
    with commas, [undefined] elements giving the empty string. *)
Fixpoint ToString (v : QVal) : string :=
  match v with
  | QUndefined => "undefined"
  | QString s => s
  | QArray l =>
      (fix join (l : list QVal) : string :=
         match l with
         | [] => empty
         | x :: r =>
             let e := match x with QUndefined => empty | _ => ToString x end in
             match r with
             | [] => e
             | _ :: _ => e ++ "," ++ join r
             end
         end) l
  | QObject _ => "[object Object]"
  end.

(** *** parseInt(string) with no radix argument *)

(** The white space that [parseInt] skips is StrWhiteSpaceChar.  Its
    one-byte members: TAB, LF, VT, FF, CR, SP. *)
Definition is_white_space (c : ascii) : bool :=
  let n := nat_of_ascii c in
  ((n =? 9) || (n =? 10) || (n =? 11) || (n =? 12) || (n =? 13) || (n =? 32))%nat.

(** Its two-byte member: U+00A0 (C2 A0). *)
Definition is_white_space2 (c1 c2 : ascii) : bool :=
  ((nat_of_ascii c1 =? 194) && (nat_of_ascii c2 =? 160))%nat.

(** Its three-byte members: U+1680 (E1 9A 80), U+2000 to U+200A (E2 80 80 to
    E2 80 8A), U+2028, U+2029 and U+202F (E2 80 A8, A9, AF), U+205F
    (E2 81 9F), U+3000 (E3 80 80) and U+FEFF (EF BB BF). *)
Definition is_white_space3 (c1 c2 c3 : ascii) : bool :=
  let n1 := nat_of_ascii c1 in
  let n2 := nat_of_ascii c2 in
  let n3 := nat_of_ascii c3 in
  (((n1 =? 225) && (n2 =? 154) && (n3 =? 128))
   || ((n1 =? 226) && (n2 =? 128) &&
       (((128 <=? n3) && (n3 <=? 138)) || (n3 =? 168) || (n3 =? 169) || (n3 =? 175)))
   || ((n1 =? 226) && (n2 =? 129) && (n3 =? 159))
   || ((n1 =? 227) && (n2 =? 128) && (n3 =? 128))
   || ((n1 =? 239) && (n2 =? 187) && (n3 =? 191)))%nat.

Fixpoint trim_start (s : string) : string :=
  match s with
  | String c1 r1 =>
      if is_white_space c1 then trim_start r1
      else
        match r1 with
        | String c2 r2 =>
            if is_white_space2 c1 c2 then trim_start r2
            else
              match r2 with
              | String c3 r3 =>
                  if is_white_space3 c1 c2 c3 then trim_start r3 else s
              | EmptyString => s
              end
        | EmptyString => s
        end
  | EmptyString => s
  end.

(** The value of a character as a digit in some radix up to 36. *)
Definition digit_value (c : ascii) : option Z :=
  let n := Z.of_nat (nat_of_ascii c) in
  if (48 <=? n) && (n <=? 57) then Some (n - 48)
  else if (97 <=? n) && (n <=? 122) then Some (n - 97 + 10)
  else if (65 <=? n) && (n <=? 90) then Some (n - 65 + 10)
  else None.

(** The mathematical value of the longest prefix of radix-[R] digits, or
    the accumulator unchanged ([None] at the start) when there is none. *)
Fixpoint digits_prefix (R : Z) (s : string) (acc : option Z) : option Z :=
  match s with
  | String c r =>
      match digit_value c with
      | Some d =>
          if d <? R
          then digits_prefix R r
                 (Some (match acc with Some a => a | None => 0 end * R + d))
          else acc
      | None => acc
      end
  | EmptyString => acc
  end.

Definition strip_sign (s : string) : Z * string :=
  match s with
  | String "-" r => (-1, r)
  | String "+" r => (1, r)
  | _ => (1, s)
  end.

Definition strip_hex_prefix (s : string) : Z * string :=
  match s with
  | String "0" (String "x" r) => (16, r)
  | String "0" (String "X" r) => (16, r)
  | _ => (10, s)
  end.

(** The double nearest to the integer [m >= 2^53], ties to the even
    significand: [m] is cut to its 53 leading bits and rounded on the rest. *)
Definition round_to_53_bits (m : Z) : Z :=
  let e := Z.log2 m - 52 in
  let q := Z.shiftr m e in
  let rest := m - Z.shiftl q e in
  let half := Z.shiftl 1 (e - 1) in
  let q' := if (half <? rest) || ((rest =? half) && Z.odd q) then q + 1 else q in
  Z.shiftl q' e.

(** The Number for the sign and the magnitude [m >= 0] that [parseInt]
    read: [m] itself below 2^53, else the nearest double, an infinity from
    2^1024 on; a zero keeps the sign.  (ECMAScript lets an engine zero the
    decimal digits after the 20th before rounding; that is not done here.) *)
Definition to_Number (negative : bool) (m : Z) : JsNumber :=
  if m =? 0 then (if negative then MinusZero else Num 0)
  else
    let r := if m <? 2 ^ 53 then m else round_to_53_bits m in
    if 2 ^ 1024 <=? r
    then (if negative then MinusInfinity else PlusInfinity)
    else Num (if negative then - r else r).

Definition parseInt (s : string) : JsNumber :=
  let (sign, s1) := strip_sign (trim_start s) in
  let (R, s2) := strip_hex_prefix s1 in
  match digits_prefix R s2 None with
  | None => NaN
  | Some m => to_Number (sign <? 0) m
  end.

(** After the white space, the sign and the [0x] prefix that [parseInt]
    skips, [s] goes on with a digit of its radix. *)
Definition has_leading_digit (s : string) : bool :=
  let (sign, s1) := strip_sign (trim_start s) in
  let (R, s2) := strip_hex_prefix s1 in
  match s2 with
  | String c _ =>
      match digit_value c with
      | Some d => d <? R
      | None => false
      end
  | EmptyString => false
  end.

(** [s] is the decimal notation of an integer: an optional minus sign and
    then digits only.  This is what the interface calls an integer string. *)
Definition is_decimal_digit (c : ascii) : bool :=
  let n := nat_of_ascii c in ((48 <=? n) && (n <=? 57))%nat.

Fixpoint all_decimal_digits (s : string) : bool :=
  match s with
  | String c r => is_decimal_digit c && all_decimal_digits r
  | EmptyString => true
  end.

Definition is_integer_string (s : string) : bool :=
  match s with
  | String "-" (String c r) => all_decimal_digits (String c r)
  | String c r => all_decimal_digits (String c r)
  | EmptyString => false
  end.

(** JavaScript truthiness of a [string | null] value: [null] and [''] are
    falsy.  [truthy v] is the string itself when [v] is truthy. *)
Definition truthy (v : option string) : option string :=
  match v with
  | Some EmptyString => None
  | Some s => Some s
  | None => None
  end.

(** A thrown [Error]; only its [message] is read by the router. *)
Record JsError : Type := { message : string }.

(** The outcome of awaiting a promise: fulfilled or rejected. *)
Inductive Result (A : Type) : Type :=
| Ok (a : A)
| Throw (e : JsError).
Arguments Ok {A} a.
Arguments Throw {A} e.

(** [new Date()] as milliseconds since the epoch. *)
Definition Date : Type := Z.

(** ** Data of the router *)

(** The session object of a request: [authId] may never have been set. *)
Record Session : Type := { authId : option string }.

(** [session?.authId || ''] *)
Definition authId_or_empty (session : option Session) : string :=
  match session with
  | Some s =>
      match authId s with
      | Some EmptyString => empty
      | Some a => a
      | None => empty
      end
  | None => empty
  end.

(** The object literal passed to [env.mongo.puzzle.review].  ([by] and [at]
    are reserved words here, hence the underscore.) *)
Record Review : Type := {
  by_ : string;
  at_ : Date;
  score : JsNumber;
  comment : QVal;
  rating : JsNumber
}.

(** The parts of [req] the routes read: [req.params.id] and [req.query].
    [req.session] is mutable and lives in the state below. *)
Record Request : Type := {
  params_id : string;
  query_score : QVal;
  query_comment : QVal;
  query_rating : QVal;
  query_code : QVal
}.

(** What [res] has been told to send. *)
Inductive Body : Type :=
| BEnd                      (* res.end() *)
| BSend (s : string)        (* res.send(s) *)
| BJson (value : string)    (* res.json(value), [value] a string *)
| BRedirect (url : string). (* res.redirect(url) *)

Record Response : Type := {
  statusCode : Z;
  body : option Body
}.

(** A response nothing has been written to: Express starts at status 200. *)
Definition fresh_response : Response := {| statusCode := 200; body := None |}.

Inductive ConsoleEntry : Type :=
| ConsoleLog (args : list string)
| ConsoleError (args : list string).

(** [htmlPage] *)
Definition htmlPage (content : string) : string :=
  nl ++ "<html>" ++ nl ++
  "  <head>" ++ nl ++
  "    <title>Lichess Puzzle Validator</title>" ++ nl ++
  "    <link href=" ++ dq ++ "/style.css" ++ dq ++ " rel=" ++ dq ++ "stylesheet" ++ dq ++ ">" ++ nl ++
  "  </head>" ++ nl ++
  "  <body>" ++ nl ++
  "    " ++ content ++ nl ++
  "  </body>" ++ nl ++
  "</html>".

(** The content of the page sent to a visitor who is not logged in. *)
Definition login_prompt : string :=
  "<a href=" ++ dq ++ "/auth" ++ dq ++ ">Login with Lichess to continue</a>".

(** The content of the interactive page around the boot payload [json]. *)
Definition puzzle_content (json : string) : string :=
  nl ++ "    <main></main>" ++ nl ++
  "    <script src=" ++ dq ++ "/dist/puzzle-validator.dev.js" ++ dq ++ "></script>" ++ nl ++
  "    <script>PuzzleValidator.start(" ++ json ++ ")</script>" ++ nl.

(** [substring_at p s]: [p] is a prefix of [s]; [contains p s]: [p] occurs
    in [s]. *)
Fixpoint substring_at (p s : string) : bool :=
  match p, s with
  | EmptyString, _ => true
  | String a p', String b s' => Ascii.eqb a b && substring_at p' s'
  | String _ _, EmptyString => false
  end.

Fixpoint contains (p s : string) : bool :=
  substring_at p s ||
  match s with
  | String _ s' => contains p s'
  | EmptyString => false
  end.

(** ** The collaborators of the router *)

Section Router.

(** The [Puzzle] documents (./puzzle), the token payload of the OAuth
    client and the state of the world outside the router (database,
    provider, clock) are opaque to the router. *)
Context {Puzzle TokenData W : Type}.

(** The object returned by [oauth.getToken]; the router reads [.token]
    (called [token_data] here, [token] being the handler's local name). *)
Record AccessToken : Type := { token_data : TokenData }.

(** The object returned by [oauth.getUserInfo]; the router reads
    [.username]. *)
Record User : Type := { user_username : string }.

(** The client boot payload [{ username, puzzle }]. *)
Record ServerData : Type := {
  data_username : string;
  data_puzzle : Puzzle
}.

(** An awaited call to a collaborator: from a world it fulfils with a value
    or rejects, and leaves a world behind. *)
Definition Async (X : Type) : Type := W -> Result X * W.

(** [env.mongo.puzzle] *)
Record PuzzleColl : Type := {
  get : JsNumber -> Async (option Puzzle);
  next : Async (option Puzzle);
  review : Puzzle -> Review -> Async unit
}.

(** [env.mongo.auth]: [username] resolves an authId to a username or to
    [null]; [save] stores a credential and returns its new authId. *)
Record AuthColl : Type := {
  username : string -> Async (option string);
  save : TokenData -> string -> Async string
}.

Record Mongo : Type := { puzzle : PuzzleColl; auth : AuthColl }.

Record Env : Type := { mongo : Mongo }.

(** The module ./oauth. *)
Record OAuth : Type := {
  authorizationUri : string;
  getToken : QVal -> Async AccessToken;
  getUserInfo : AccessToken -> Async User
}.

(** The built-ins whose result depends on opaque data: [new Date()] reads
    the clock of the world, [JSON.stringify] prints the boot payload. *)
Record Builtins : Type := {
  Date_now : W -> Date;
  JSON_stringify : ServerData -> string
}.

(** ** The state a handler runs in *)

(** Every call to a collaborator is recorded with its outcome, in order. *)
Inductive Event : Type :=
| EPuzzleGet (id : JsNumber) (out : Result (option Puzzle))
| EPuzzleNext (out : Result (option Puzzle))
| EPuzzleReview (p : Puzzle) (r : Review) (out : Result unit)
| EAuthUsername (a : string) (out : Result (option string))
| EAuthSave (t : TokenData) (name : string) (out : Result string)
| EGetToken (code : QVal) (out : Result AccessToken)
| EGetUserInfo (t : AccessToken) (out : Result User).

Record St : Type := {
  world : W;
  session : option Session;     (* req.session *)
  res : Response;               (* res *)
  calls : list Event;
  console : list ConsoleEntry;
  unhandled : list JsError      (* rejections of promises nobody awaits *)
}.

(** The state in which a request arrives.  The state a run ends in is the
    one reached when every promise the request started has settled. *)
Definition arrive (w : W) (s : option Session) : St :=
  {| world := w; session := s; res := fresh_response; calls := []; console := [];
     unhandled := [] |}.

(** A handler: it changes the state and completes or throws.  What was done
    before a throw stays done.  The handlers are [async] functions: a throw
    is a rejected promise, which no route but [/oauth-callback] catches, so
    the handler writes nothing more to [res] after it.  The outcome of a
    route is that of the promise of its handler. *)
Definition M (A : Type) : Type := St -> Result A * St.

#[local] Instance Monad_M : Monad M := {
  ret := fun A (a : A) st => (Ok a, st);
  bind := fun A B (m : M A) (k : A -> M B) st =>
            match m st with
            | (Ok a, st') => k a st'
            | (Throw e, st') => (Throw e, st')
            end
}.

#[local] Instance Exc_M : MonadExc JsError M := {
  raise := fun A (e : JsError) st => (Throw e, st);
  catch := fun A (m : M A) (h : JsError -> M A) st =>
             match m st with
             | (Ok a, st') => (Ok a, st')
             | (Throw e, st') => h e st'
             end
}.

Definition exec {A : Type} (m : M A) (st : St) : St := snd (m st).
Definition outcome {A : Type} (m : M A) (st : St) : Result A := fst (m st).

(** [await op], recorded as [ev]. *)
Definition await {X : Type} (op : Async X) (ev : Result X -> Event) : M X :=
  fun st =>
    let (r, w') := op (world st) in
    (r, {| world := w'; session := session st; res := res st;
           calls := calls st ++ [ev r]; console := console st;
           unhandled := unhandled st |}).

Definition update_res (f : Response -> Response) : M unit :=
  fun st =>
    (Ok tt, {| world := world st; session := session st; res := f (res st);
               calls := calls st; console := console st;
               unhandled := unhandled st |}).

Definition res_status (code : Z) : M unit :=
  update_res (fun r => {| statusCode := code; body := body r |}).
Definition res_end : M unit :=
  update_res (fun r => {| statusCode := statusCode r; body := Some BEnd |}).
Definition res_send (s : string) : M unit :=
  update_res (fun r => {| statusCode := statusCode r; body := Some (BSend s) |}).
Definition res_json (v : string) : M unit :=
  update_res (fun r => {| statusCode := statusCode r; body := Some (BJson v) |}).
(** [res.redirect(url)] answers 302 with the location. *)
Definition res_redirect (url : string) : M unit :=
  update_res (fun _ => {| statusCode := 302; body := Some (BRedirect url) |}).

Definition console_write (e : ConsoleEntry) : M unit :=
  fun st =>
    (Ok tt, {| world := world st; session := session st; res := res st;
               calls := calls st; console := console st ++ [e];
               unhandled := unhandled st |}).

Definition req_session : M (option Session) := fun st => (Ok (session st), st).

(** A call of an [async] function that the caller neither awaits nor
    returns: the callee runs and its writes happen, but the caller goes on
    to its end whatever becomes of the callee, whose rejection nobody
    handles. *)
Definition detached {A : Type} (m : M A) : M unit :=
  fun st =>
    match m st with
    | (Ok _, st') => (Ok tt, st')
    | (Throw e, st') =>
        (Ok tt, {| world := world st'; session := session st'; res := res st';
                   calls := calls st'; console := console st';
                   unhandled := unhandled st' ++ [e] |})
    end.

Definition new_Date (b : Builtins) : M Date := fun st => (Ok (Date_now b (world st)), st).

(** [req.session!.authId = a]: the assertion [!] checks nothing at run time,
    so the assignment throws a TypeError when there is no session. *)
Definition set_authId (a : string) : M unit :=
  fun st =>
    match session st with
    | Some _ =>
        (Ok tt, {| world := world st; session := Some {| authId := Some a |};
                   res := res st; calls := calls st; console := console st;
                   unhandled := unhandled st |})
    | None =>
        (Throw {| message := "Cannot set properties of undefined" |}, st)
    end.

(** ** The routes *)

Variables (env : Env) (oauth : OAuth) (builtins : Builtins).

Definition puzzle_get (id : JsNumber) : M (option Puzzle) :=
  await (get (puzzle (mongo env)) id) (EPuzzleGet id).
Definition puzzle_next : M (option Puzzle) :=
  await (next (puzzle (mongo env))) EPuzzleNext.
Definition puzzle_review (p : Puzzle) (r : Review) : M unit :=
  await (review (puzzle (mongo env)) p r) (EPuzzleReview p r).
Definition auth_username (a : string) : M (option string) :=
  await (username (auth (mongo env)) a) (EAuthUsername a).
Definition auth_save (t : TokenData) (name : string) : M string :=
  await (save (auth (mongo env)) t name) (EAuthSave t name).
Definition oauth_getToken (code : QVal) : M AccessToken :=
  await (getToken oauth code) (EGetToken code).
Definition oauth_getUserInfo (t : AccessToken) : M User :=
  await (getUserInfo oauth t) (EGetUserInfo t).

(** [renderPuzzle(session, res, puzzle)] *)
Definition renderPuzzle (session : option Session) (puzzle : option Puzzle) : M unit :=
  match puzzle with
  | None => res_status 404 ;; res_end
  | Some puzzle =>
      username <- auth_username (authId_or_empty session) ;;
      match truthy username with
      | None => res_send (htmlPage login_prompt)
      | Some username =>
          let data := {| data_username := username; data_puzzle := puzzle |} in
          res_send (htmlPage (puzzle_content (JSON_stringify builtins data)))
      end
  end.

(** [app.get('/')].  The handler calls [renderPuzzle] without [await]: its
    own promise is fulfilled once the lookup is, and a rejection inside
    [renderPuzzle] is unhandled. *)
Definition get_root (req : Request) : M unit :=
  puzzle <- puzzle_next ;;
  session <- req_session ;;
  detached (renderPuzzle session puzzle).

(** [app.get('/puzzle/:id')], with the same unawaited call. *)
Definition get_puzzle (req : Request) : M unit :=
  puzzle <- puzzle_get (parseInt (params_id req)) ;;
  session <- req_session ;;
  detached (renderPuzzle session puzzle).

(** [app.post('/review/:id')] *)
Definition post_review (req : Request) : M unit :=
  puzzle <- puzzle_get (parseInt (params_id req)) ;;
  match puzzle with
  | None => res_status 404 ;; res_end
  | Some puzzle =>
      session <- req_session ;;
      username <- auth_username (authId_or_empty session) ;;
      match truthy username with
      | None => res_status 403 ;; res_end
      | Some username =>
          now <- new_Date builtins ;;
          puzzle_review puzzle
            {| by_ := username;
               at_ := now;
               score := parseInt (ToString (query_score req));
               comment := query_comment req;
               rating := parseInt (ToString (query_rating req)) |} ;;
          next <- puzzle_next ;;
          match next with
          | None => res_status 404 ;; res_end
          | Some next =>
              res_send (JSON_stringify builtins
                          {| data_username := username; data_puzzle := next |})
          end
      end
  end.

(** [app.get('/logout')] *)
Definition get_logout (req : Request) : M unit :=
  set_authId empty ;;
  res_redirect "/".

(** [app.get('/auth')] *)
Definition get_auth (req : Request) : M unit :=
  console_write (ConsoleLog [authorizationUri oauth]) ;;
  res_redirect (authorizationUri oauth).

(** [app.get('/oauth-callback')] *)
Definition get_oauth_callback (req : Request) : M unit :=
  catch
    (token <- oauth_getToken (query_code req) ;;
     user <- oauth_getUserInfo token ;;
     authId <- auth_save (token_data token) (user_username user) ;;
     set_authId authId ;;
     res_redirect "/")
    (fun error =>
       console_write (ConsoleError ["Access Token Error"; message error]) ;;
       res_status 500 ;;
       res_json "Authentication failed").

(** The routing table of the application. *)
Inductive Route : Type :=
| GET_root
| GET_puzzle
| POST_review
| GET_logout
| GET_auth
| GET_oauth_callback.

Definition handle (r : Route) (req : Request) : M unit :=
  match r with
  | GET_root => get_root req
  | GET_puzzle => get_puzzle req
  | POST_review => post_review req
  | GET_logout => get_logout req
  | GET_auth => get_auth req
  | GET_oauth_callback => get_oauth_callback req
  end.

End Router.

(** ** An in-memory store and provider *)

(** Modelled from the spec: the document store behind [env.mongo] (./env),
    the OAuth client (./oauth) and the [Puzzle] type (./puzzle) are outside
    the router.  This store follows their contracts: [get] is absent when no
    puzzle has the id, [username] is absent for an empty or unknown authId,
    [review] attaches the review to its puzzle, [next] follows one of the
    two selection policies the specification names, and the provider rejects
    an unknown authorization code. *)
Module Mem.

Record Puzzle : Type := {
  puzzle_id : Z;
  json : string          (* the puzzle document as JSON text *)
}.

Record Entry : Type := {
  doc : Puzzle;
  reviews : list Review
}.

(** The two policies for the next puzzle to review: the least reviewed
    puzzle (absent only when there is no puzzle at all), or the first
    puzzle without a review (absent once the backlog is exhausted). *)
Inductive Policy : Type :=
| LeastReviewed
| FirstUnreviewed.

Record Db : Type := {
  puzzles : list Entry;
  credentials : list (string * string);        (* authId, username *)
  grants : list (string * (string * string));  (* code, (token, username) *)
  clock : Z
}.

Definition with_puzzles (db : Db) (l : list Entry) : Db :=
  {| puzzles := l; credentials := credentials db; grants := grants db;
     clock := clock db |}.

Definition find_puzzle (id : JsNumber) (db : Db) : option Puzzle :=
  match id with
  | Num z =>
      option_map doc (find (fun e => puzzle_id (doc e) =? z) (puzzles db))
  | MinusZero =>
      option_map doc (find (fun e => puzzle_id (doc e) =? 0) (puzzles db))
  | NaN | PlusInfinity | MinusInfinity => None
  end.

Fixpoint least_reviewed (l : list Entry) : option Entry :=
  match l with
  | [] => None
  | e :: r =>
      match least_reviewed r with
      | Some e' =>
          if (List.length (reviews e') <? List.length (reviews e))%nat
          then Some e' else Some e
      | None => Some e
      end
  end.

Definition first_unreviewed (l : list Entry) : option Entry :=
  find (fun e => match reviews e with [] => true | _ => false end) l.

Definition select (pol : Policy) (db : Db) : option Puzzle :=
  option_map doc
    (match pol with
     | LeastReviewed => least_reviewed (puzzles db)
     | FirstUnreviewed => first_unreviewed (puzzles db)
     end).

Definition attach (p : Puzzle) (r : Review) (db : Db) : Db :=
  with_puzzles db
    (map (fun e =>
            if puzzle_id (doc e) =? puzzle_id p
            then {| doc := doc e; reviews := reviews e ++ [r] |}
            else e)
         (puzzles db)).

Fixpoint assoc {A : Type} (k : string) (l : list (string * A)) : option A :=
  match l with
  | [] => None
  | (k', v) :: r => if String.eqb k k' then Some v else assoc k r
  end.

Definition resolve (a : string) (db : Db) : option string :=
  match a with
  | EmptyString => None
  | _ => assoc a (credentials db)
  end.

Definition store (a : string) (name : string) (db : Db) : Db :=
  {| puzzles := puzzles db; credentials := (a, name) :: credentials db;
     grants := grants db; clock := clock db |}.

Definition env (pol : Policy) : @Env Puzzle string Db :=
  {| mongo :=
       {| puzzle :=
            {| get := fun id db => (Ok (find_puzzle id db), db);
               next := fun db => (Ok (select pol db), db);
               review := fun p r db => (Ok tt, attach p r db) |};
          auth :=
            {| username := fun a db => (Ok (resolve a db), db);
               save := fun t name db =>
                         let a := "auth-" ++ t in (Ok a, store a name db) |} |} |}.

Definition oauth : @OAuth string Db :=
  {| authorizationUri := "https://oauth.lichess.org/oauth/authorize";
     getToken := fun code db =>
       match code with
       | QString c =>
           match assoc c (grants db) with
           | Some (t, _) => (Ok {| token_data := t |}, db)
           | None => (Throw {| message := "invalid_grant" |}, db)
           end
       | _ => (Throw {| message := "invalid_request" |}, db)
       end;
     getUserInfo := fun t db =>
       match find (fun g => String.eqb (fst (snd g)) (token_data t)) (grants db) with
       | Some (_, (_, name)) => (Ok {| user_username := name |}, db)
       | None => (Throw {| message := "No such token" |}, db)
       end |}.

Definition builtins : @Builtins Puzzle Db :=
  {| Date_now := clock;
     JSON_stringify := fun d =>
       "{" ++ dq ++ "username" ++ dq ++ ":" ++ dq ++ data_username d ++ dq ++
       "," ++ dq ++ "puzzle" ++ dq ++ ":" ++ json (data_puzzle d) ++ "}" |}.

(** Sample data: two puzzles, one credential for alice, one valid code. *)
Definition p1 : Puzzle := {| puzzle_id := 1; json := "{id:1}" |}.
Definition p2 : Puzzle := {| puzzle_id := 2; json := "{id:2}" |}.

Definition db_of (l : list Puzzle) : Db :=
  {| puzzles := map (fun p => {| doc := p; reviews := [] |}) l;
     credentials := [("auth-t0", "alice")];
     grants := [("code-bob", ("tok-bob", "bob"))];
     clock := 1600000000000 |}.

Definition db12 : Db := db_of [p1; p2].
Definition db0 : Db := db_of [].

(** The review alice submits with comment "ok" at the time of [db_of]. *)
Definition review_alice (sc rt : JsNumber) : Review :=
  {| by_ := "alice"; at_ := 1600000000000; score := sc;
     comment := QString "ok"; rating := rt |}.

Definition alice : option Session := Some {| authId := Some "auth-t0" |}.
Definition anonymous : option Session := Some {| authId := None |}.

(** [POST /review/:id?score=..&comment=..&rating=..] and plain requests. *)
Definition review_request (id score comment rating : string) : Request :=
  {| params_id := id; query_score := QString score;
     query_comment := QString comment; query_rating := QString rating;
     query_code := QUndefined |}.

Definition plain_request (id : string) : Request :=
  {| params_id := id; query_score := QUndefined; query_comment := QUndefined;
     query_rating := QUndefined; query_code := QUndefined |}.

Definition callback_request (code : string) : Request :=
  {| params_id := empty; query_score := QUndefined; query_comment := QUndefined;
     query_rating := QUndefined; query_code := QString code |}.

End Mem.

(** ** The responses the router gives *)

Definition not_found : Response := {| statusCode := 404; body := Some BEnd |}.
Definition forbidden : Response := {| statusCode := 403; body := Some BEnd |}.
Definition login_page : Response :=
  {| statusCode := 200; body := Some (BSend (htmlPage login_prompt)) |}.
Definition redirect_to (url : string) : Response :=
  {| statusCode := 302; body := Some (BRedirect url) |}.
Definition authentication_failed : Response :=
  {| statusCode := 500; body := Some (BJson "Authentication failed") |}.

Section Responses.

Context {Puzzle W : Type} (builtins : @Builtins Puzzle W).

(** The interactive page booting the client from [{username, puzzle}]. *)
Definition interactive_page (name : string) (p : Puzzle) : Response :=
  {| statusCode := 200;
     body := Some (BSend (htmlPage (puzzle_content
               (JSON_stringify builtins
                  {| data_username := name; data_puzzle := p |})))) |}.


End Responses.

(** The two documents of the page routes as the browser receives them,
    written out in full: the one for a visitor who is not logged in, and the
    one that boots the client from the payload [json]. *)
Definition login_document : string :=
  nl ++ "<html>" ++ nl ++
  "  <head>" ++ nl ++
  "    <title>Lichess Puzzle Validator</title>" ++ nl ++
  "    <link href=" ++ dq ++ "/style.css" ++ dq ++ " rel=" ++ dq ++ "stylesheet" ++ dq ++ ">" ++ nl ++
  "  </head>" ++ nl ++
  "  <body>" ++ nl ++
  "    <a href=" ++ dq ++ "/auth" ++ dq ++ ">Login with Lichess to continue</a>" ++ nl ++
  "  </body>" ++ nl ++
  "</html>".

Definition interactive_document (json : string) : string :=
  nl ++ "<html>" ++ nl ++
  "  <head>" ++ nl ++
  "    <title>Lichess Puzzle Validator</title>" ++ nl ++
  "    <link href=" ++ dq ++ "/style.css" ++ dq ++ " rel=" ++ dq ++ "stylesheet" ++ dq ++ ">" ++ nl ++
  "  </head>" ++ nl ++
  "  <body>" ++ nl ++
  "    " ++ nl ++
  "    <main></main>" ++ nl ++
  "    <script src=" ++ dq ++ "/dist/puzzle-validator.dev.js" ++ dq ++ "></script>" ++ nl ++
  "    <script>PuzzleValidator.start(" ++ json ++ ")</script>" ++ nl ++
  nl ++
  "  </body>" ++ nl ++
  "</html>".

(** The state a handler leaves when it wrote nothing to the console and
    left no rejection unhandled. *)
Definition left {Puzzle TokenData W : Type}
    (w : W) (s : option Session) (r : Response)
    (cs : list (@Event Puzzle TokenData)) : @St Puzzle TokenData W :=
  {| world := w; session := s; res := r; calls := cs; console := [];
     unhandled := [] |}.

(** The review the router builds for [name] from the query of [req] at
    time [now]. *)
Definition review_of (req : Request) (name : string) (now : Date) : Review :=
  {| by_ := name;
     at_ := now;
     score := parseInt (ToString (query_score req));
     comment := query_comment req;
     rating := parseInt (ToString (query_rating req)) |}.

Definition is_review {Puzzle TokenData : Type} (e : @Event Puzzle TokenData) : bool :=
  match e with
  | EPuzzleReview _ _ _ => true
  | _ => false
  end.

Section Lookups.

Context {Puzzle TokenData W : Type} (env : @Env Puzzle TokenData W).

(** The puzzle lookup a route starts with: [next()] for [/], and
    [get(parseInt(req.params.id))] for the routes with an [:id]. *)
Definition lookup (r : Route) (req : Request) : Async (option Puzzle) :=
  match r with
  | GET_root => next (puzzle (mongo env))
  | _ => get (puzzle (mongo env)) (parseInt (params_id req))
  end.

Definition ELookup (r : Route) (req : Request)
    (out : Result (option Puzzle)) : @Event Puzzle TokenData :=
  match r with
  | GET_root => EPuzzleNext out
  | _ => EPuzzleGet (parseInt (params_id req)) out
  end.

End Lookups.

Section Exchange.

Context {Puzzle TokenData W : Type}
        (env : @Env Puzzle TokenData W) (oauth : @OAuth TokenData W).

(** The three ways the OAuth handshake of [/oauth-callback] fails from the
    world [w]: the token exchange, the user-info fetch or the credential
    save rejects with [e], leaving the world [w']. *)
Inductive ExchangeFails (code : QVal) (w : W) (e : JsError) (w' : W) : Prop :=
| token_exchange_fails :
    getToken oauth code w = (Throw e, w') ->
    ExchangeFails code w e w'
| user_info_fails (t : AccessToken) (w1 : W) :
    getToken oauth code w = (Ok t, w1) ->
    getUserInfo oauth t w1 = (Throw e, w') ->
    ExchangeFails code w e w'
| credential_save_fails (t : AccessToken) (w1 : W) (usr : User) (w2 : W) :
    getToken oauth code w = (Ok t, w1) ->
    getUserInfo oauth t w1 = (Ok usr, w2) ->
    save (auth (mongo env)) (token_data t) (user_username usr) w2 = (Throw e, w') ->
    ExchangeFails code w e w'.

End Exchange.

(** The routes that render a puzzle page, and the routes that start with a
    puzzle lookup. *)
Definition is_page_route (r : Route) : bool :=
  match r with
  | GET_root | GET_puzzle => true
  | _ => false
  end.

Definition has_lookup (r : Route) : bool :=
  match r with
  | GET_root | GET_puzzle | POST_review => true
  | _ => false
  end.

(** ** Observations on the trace of a run *)

(** Which operation of a collaborator a recorded call is. *)
Inductive CallKind : Type :=
| KGet
| KNext
| KReview
| KUsername
| KSave
| KGetToken
| KGetUserInfo.

Definition kind {Puzzle TokenData : Type} (e : @Event Puzzle TokenData) : CallKind :=
  match e with
  | EPuzzleGet _ _ => KGet
  | EPuzzleNext _ => KNext
  | EPuzzleReview _ _ _ => KReview
  | EAuthUsername _ _ => KUsername
  | EAuthSave _ _ _ => KSave
  | EGetToken _ _ => KGetToken
  | EGetUserInfo _ _ => KGetUserInfo
  end.

(** The awaited calls of each route, in the order the source makes them. *)
Definition plan (r : Route) : list CallKind :=
  match r with
  | GET_root => [KNext; KUsername]
  | GET_puzzle => [KGet; KUsername]
  | POST_review => [KGet; KUsername; KReview; KNext]
  | GET_logout => []
  | GET_auth => []
  | GET_oauth_callback => [KGetToken; KGetUserInfo; KSave]
  end.






(** The routes whose source assigns to [req.session]. *)
Definition assigns_session (r : Route) : bool :=
  match r with
  | GET_logout | GET_oauth_callback => true
  | _ => false
  end.

(** The status codes the source of each route can answer with. *)
Definition statuses (r : Route) : list Z :=
  match r with
  | GET_root => [200; 404]
  | GET_puzzle => [200; 404]
  | POST_review => [200; 403; 404]
  | GET_logout => [302]
  | GET_auth => [302]
  | GET_oauth_callback => [302; 500]
  end.


(** ** The client: validator/front/src/main.ts *)

(** [start(data)] is what the script of the interactive page calls.  The
    controller (./ctrl), the view (./view), snabbdom's [patch], Mousetrap and
    the DOM are outside that file and are taken as parameters. *)
Module Front.

(** A computation on a state [S] that completes or throws. *)
Definition Eff (S A : Type) : Type := S -> Result A * S.

#[local] Instance Monad_Eff {S : Type} : Monad (Eff S) := {
  ret := fun A (a : A) st => (Ok a, st);
  bind := fun A B (m : Eff S A) (k : A -> Eff S B) st =>
            match m st with
            | (Ok a, st') => k a st'
            | (Throw e, st') => (Throw e, st')
            end
}.

(** The part of a keyboard event the callbacks read. *)
Record KeyboardEvent : Type := { repeat : bool }.

Section Start.

(** The boot payload, the controller object, the virtual nodes, the DOM
    elements and the state of the browser (the document and whatever the
    controller keeps). *)
Context {Data Ctrl VNode Element BW : Type}.

(** What is mutable and within reach of the controller: the browser and the
    variable [vnode] of [start], which [redraw] assigns. *)
Record Inner : Type := {
  page : BW;
  vnode : option VNode        (* [None]: not assigned yet *)
}.

Definition Redraw : Type := Eff Inner unit.

(** The first argument of [patch]. *)
Inductive Target : Type :=
| TElement (e : Element)
| TVNode (v : VNode)
| TNothing.                   (* [null], or [vnode] before its assignment *)

Record Page : Type := {
  querySelector : string -> BW -> option Element;   (* document.querySelector *)
  clear_innerHTML : Element -> BW -> BW;            (* element.innerHTML = '' *)
  click : Element -> Eff Inner unit;                (* element.click() *)
  Ctrl_new : Data -> (Ctrl -> Redraw) -> Eff Inner Ctrl;  (* new Ctrl(data, redraw) *)
  back : Ctrl -> Redraw -> Eff Inner unit;          (* ctrl.back *)
  forward : Ctrl -> Redraw -> Eff Inner unit;       (* ctrl.forward *)
  review : Ctrl -> bool -> Redraw -> Eff Inner unit;  (* ctrl.review(accept) *)
  view : Ctrl -> BW -> Result VNode * BW;           (* view(ctrl) *)
  patch : Target -> VNode -> BW -> Result VNode * BW   (* patch(old, vnode) *)
}.

(** A function bound to a key. *)
Definition Callback : Type := KeyboardEvent -> Eff Inner unit.

(** The state of the client: the above and the bindings of Mousetrap. *)
Record St : Type := {
  inner : Inner;
  bindings : list (string * Callback)
}.

Variable pg : Page.

(** A browser call that leaves [vnode] alone. *)
Definition on_page {X : Type} (op : BW -> Result X * BW) : Eff Inner X :=
  fun i =>
    let (r, b) := op (page i) in (r, {| page := b; vnode := vnode i |}).

Definition read_vnode : Eff Inner Target :=
  fun i =>
    (Ok match vnode i with Some v => TVNode v | None => TNothing end, i).

Definition assign_vnode (v : VNode) : Eff Inner unit :=
  fun i => (Ok tt, {| page := page i; vnode := Some v |}).

(** [redraw]: [vnode = patch(vnode, view(ctrl))]. *)
Definition redraw (ctrl : Ctrl) : Redraw :=
  old <- read_vnode ;;
  tree <- on_page (view pg ctrl) ;;
  v <- on_page (patch pg old tree) ;;
  assign_vnode v.

(** [noRepeat] *)
Definition noRepeat (f : Eff Inner unit) : Callback :=
  fun e => if negb (repeat e) then f else ret tt.

(** [() => (document.querySelector('a.analyse') as HTMLAnchorElement).click()]:
    the cast checks nothing, so the call throws when there is no such link. *)
Definition click_analyse : Callback :=
  fun _ i =>
    match querySelector pg "a.analyse" (page i) with
    | Some a => click pg a i
    | None => (Throw {| message := "Cannot read properties of null" |}, i)
    end.

(** [element.innerHTML = ''], [element] being the result of
    [document.querySelector('main')] taken when [start] began. *)
Definition clear_element (element : option Element) : Eff Inner unit :=
  fun i =>
    match element with
    | Some el => (Ok tt, {| page := clear_innerHTML pg el (page i); vnode := vnode i |})
    | None => (Throw {| message := "Cannot set properties of null" |}, i)
    end.

Definition patch_element (element : option Element) (tree : VNode) : Eff Inner VNode :=
  match element with
  | Some el => on_page (patch pg (TElement el) tree)
  | None => on_page (patch pg TNothing tree)
  end.

(** A step of [start] that does not touch the bindings. *)
Definition lift {X : Type} (m : Eff Inner X) : Eff St X :=
  fun st =>
    let (r, i) := m (inner st) in (r, {| inner := i; bindings := bindings st |}).

(** [Mousetrap.bind(key, callback)]: the callback replaces an earlier one
    for the same key. *)
Definition Mousetrap_bind (key : string) (cb : Callback) : Eff St unit :=
  fun st =>
    (Ok tt,
     {| inner := inner st;
        bindings := (key, cb) ::
                    filter (fun b => negb (String.eqb (fst b) key)) (bindings st) |}).

(** [start] *)
Definition start (data : Data) : Eff St unit :=
  element <- (fun st => (Ok (querySelector pg "main" (page (inner st))), st)) ;;
  ctrl <- lift (Ctrl_new pg data redraw) ;;
  blueprint <- lift (on_page (view pg ctrl)) ;;
  lift (clear_element element) ;;
  v <- lift (patch_element element blueprint) ;;
  lift (assign_vnode v) ;;
  lift (redraw ctrl) ;;
  Mousetrap_bind "left" (fun _ => back pg ctrl (redraw ctrl)) ;;
  Mousetrap_bind "right" (fun _ => forward pg ctrl (redraw ctrl)) ;;
  Mousetrap_bind "backspace" (noRepeat (review pg ctrl false (redraw ctrl))) ;;
  Mousetrap_bind "enter" (noRepeat (review pg ctrl true (redraw ctrl))) ;;
  Mousetrap_bind "a" click_analyse.

(** The callback Mousetrap has for a key. *)
Fixpoint bound (key : string) (l : list (string * Callback)) : option Callback :=
  match l with
  | [] => None
  | (k, cb) :: r => if String.eqb k key then Some cb else bound key r
  end.

(** Mousetrap delivers a key event: the callback bound to the key, if any,
    is called with the event. *)
Definition press (key : string) (e : KeyboardEvent) : Eff St unit :=
  fun st =>
    match bound key (bindings st) with
    | Some cb => lift (cb e) st
    | None => (Ok tt, st)
    end.

(** A sequence of delivered key events; a callback that throws does not stop
    the later ones. *)
Fixpoint presses (es : list (string * KeyboardEvent)) (st : St) : St :=
  match es with
  | [] => st
  | (k, e) :: r => presses r (snd (press k e st))
  end.

(** The key events that [noRepeat] swallows: a held Enter or Backspace. *)
Definition swallowed (ke : string * KeyboardEvent) : bool :=
  repeat (snd ke) &&
  (String.eqb (fst ke) "enter" || String.eqb (fst ke) "backspace").

(** The five callbacks of [start] for the controller [ctrl] are in place. *)
Definition installed (ctrl : Ctrl) (l : list (string * Callback)) : Prop :=
  bound "left" l = Some (fun _ => back pg ctrl (redraw ctrl)) /\
  bound "right" l = Some (fun _ => forward pg ctrl (redraw ctrl)) /\
  bound "backspace" l = Some (noRepeat (review pg ctrl false (redraw ctrl))) /\
  bound "enter" l = Some (noRepeat (review pg ctrl true (redraw ctrl))) /\
  bound "a" l = Some click_analyse.

End Start.

End Front.

(** ** A page to run the client on *)

(** Modelled from the spec: the controller (./ctrl) and the view (./view) are
    outside main.ts.  This controller keeps a display cursor that [back] and
    [forward] move and the verdicts that [review] submitted, and redraws
    after every change; the view shows the cursor; a patch counts as one
    drawing and puts the analyse link in the document. *)
Module Toy.

Record Doc : Type := {
  has_main : bool;
  has_link : bool;
  cursor : Z;
  verdicts : list bool;
  drawings : nat
}.

Definition Inner : Type := @Front.Inner Z Doc.

Definition on_doc (f : Doc -> Doc) : Front.Eff Inner unit :=
  fun i => (Ok tt, {| Front.page := f (Front.page i); Front.vnode := Front.vnode i |}).

Definition move (d : Z) (doc : Doc) : Doc :=
  {| has_main := has_main doc; has_link := has_link doc;
     cursor := cursor doc + d; verdicts := verdicts doc;
     drawings := drawings doc |}.

Definition submit (accept : bool) (doc : Doc) : Doc :=
  {| has_main := has_main doc; has_link := has_link doc;
     cursor := cursor doc; verdicts := verdicts doc ++ [accept];
     drawings := drawings doc |}.

Definition then_redraw (m redraw : Front.Eff Inner unit) : Front.Eff Inner unit :=
  fun i =>
    match m i with
    | (Ok _, i') => redraw i'
    | (Throw e, i') => (Throw e, i')
    end.

Definition page : @Front.Page Z unit Z string Doc :=
  {| Front.querySelector := fun sel doc =>
       if String.eqb sel "main" then (if has_main doc then Some "main" else None)
       else if String.eqb sel "a.analyse"
            then (if has_link doc then Some "a.analyse" else None)
            else None;
     Front.clear_innerHTML := fun _ doc => doc;
     Front.click := fun _ i => (Ok tt, i);
     Front.Ctrl_new := fun data _ i =>
       (Ok tt, {| Front.page := move (data - cursor (Front.page i)) (Front.page i);
                  Front.vnode := Front.vnode i |});
     Front.back := fun _ redraw => then_redraw (on_doc (move (-1))) redraw;
     Front.forward := fun _ redraw => then_redraw (on_doc (move 1)) redraw;
     Front.review := fun _ accept redraw => then_redraw (on_doc (submit accept)) redraw;
     Front.view := fun _ doc => (Ok (cursor doc), doc);
     Front.patch := fun _ tree doc =>
       (Ok tree,
        {| has_main := has_main doc; has_link := true; cursor := cursor doc;
           verdicts := verdicts doc; drawings := S (drawings doc) |}) |}.

(** The browser before [start]: the document the server sent, with or
    without its [main] element, and no key bound. *)
Definition loaded (main : bool) : @Front.St Z Doc :=
  {| Front.inner :=
       {| Front.page := {| has_main := main; has_link := false; cursor := 0;
                           verdicts := []; drawings := 0 |};
          Front.vnode := None |};
     Front.bindings := [] |}.

Definition key (k : string) (held : bool) : string * Front.KeyboardEvent :=
  (k, {| Front.repeat := held |}).

End Toy.


(** * Properties *)

(** ** When parseInt gives NaN *)

Lemma to_Number_not_NaN (negative : bool) (m : Z) : to_Number negative m <> NaN.
Proof.
  unfold to_Number. destruct (m =? 0); [destruct negative; discriminate|].
  destruct (2 ^ 1024 <=? _); destruct negative; discriminate.
Qed.

Lemma digits_prefix_started (R : Z) (s : string) (a : Z) :
  exists z, digits_prefix R s (Some a) = Some z.
Proof.
  revert a. induction s as [|c r IH]; intros a; cbn [digits_prefix].
  - exists a. reflexivity.
  - destruct (digit_value c) as [d|]; [|exists a; reflexivity].
    destruct (d <? R); [apply IH | exists a; reflexivity].
Qed.

(** [parseInt] gives [NaN] exactly for the strings that, after the white
    space, sign and [0x] prefix it skips, do not go on with a digit. *)
Lemma parseInt_NaN (s : string) :
  parseInt s = NaN <-> has_leading_digit s = false.
Proof.
  unfold parseInt, has_leading_digit.
  destruct (strip_sign (trim_start s)) as [sign s1].
  destruct (strip_hex_prefix s1) as [R s2].
  destruct s2 as [|c r]; cbn [digits_prefix]; [split; reflexivity|].
  destruct (digit_value c) as [d|]; [|split; reflexivity].
  destruct (d <? R); [|split; reflexivity].
  destruct (digits_prefix_started R r (0 * R + d)) as [z ->].
  split; [|discriminate].
  intros H. exfalso. exact (to_Number_not_NaN _ _ H).
Qed.

(** ** Text inside a page *)

Lemma string_append_assoc (a b c : string) :
  ((a ++ b) ++ c = a ++ (b ++ c))%string.
Proof.
  induction a as [|x a IH]; cbn; [reflexivity | now rewrite IH].
Qed.

Lemma substring_at_prefix (p s : string) : substring_at p (p ++ s) = true.
Proof.
  induction p as [|x p IH]; cbn; [reflexivity|].
  now rewrite Ascii.eqb_refl, IH.
Qed.

Lemma contains_unfold (p s : string) :
  contains p s =
  substring_at p s ||
  match s with
  | String _ s' => contains p s'
  | EmptyString => false
  end.
Proof. destruct s; reflexivity. Qed.

Lemma contains_after (p a s : string) :
  contains p s = true -> contains p (a ++ s) = true.
Proof.
  intros H. induction a as [|x a IH]; cbn [append]; [exact H|].
  rewrite contains_unfold, IH. apply orb_true_r.
Qed.

Lemma contains_between (p a b : string) : contains p (a ++ p ++ b) = true.
Proof.
  apply contains_after. rewrite contains_unfold, substring_at_prefix. reflexivity.
Qed.

Section RouterFacts.

Context {Puzzle TokenData W : Type}.
Variables (env : @Env Puzzle TokenData W)
          (oauth : @OAuth TokenData W)
          (builtins : @Builtins Puzzle W).

Local Abbreviation store_get := (get (puzzle (mongo env))).
Local Abbreviation store_next := (next (puzzle (mongo env))).
Local Abbreviation store_review := (review (puzzle (mongo env))).
Local Abbreviation store_username := (username (auth (mongo env))).
Local Abbreviation store_save := (save (auth (mongo env))).

(** *** Runs of the review route, one lemma per way it can end *)

Lemma post_review_missing (req : Request) (w w1 : W) (s : option Session) :
  store_get (parseInt (params_id req)) w = (Ok None, w1) ->
  post_review env builtins req (arrive w s) =
  (Ok tt, left w1 s not_found [EPuzzleGet (parseInt (params_id req)) (Ok None)]).
Proof.
  intros Hget. unfold post_review, puzzle_get, await, arrive. cbn.
  rewrite Hget. reflexivity.
Qed.

Lemma post_review_unauthenticated (req : Request) (w w1 w2 : W)
    (s : option Session) (p : Puzzle) (u : option string) :
  store_get (parseInt (params_id req)) w = (Ok (Some p), w1) ->
  store_username (authId_or_empty s) w1 = (Ok u, w2) ->
  truthy u = None ->
  post_review env builtins req (arrive w s) =
  (Ok tt, left w2 s forbidden
            [EPuzzleGet (parseInt (params_id req)) (Ok (Some p));
             EAuthUsername (authId_or_empty s) (Ok u)]).
Proof.
  intros Hget Hname Hu.
  unfold post_review, puzzle_get, auth_username, await, arrive. cbn.
  rewrite Hget. cbn. rewrite Hname. cbn. rewrite Hu. reflexivity.
Qed.


Lemma truthy_Some (u : option string) (name : string) :
  truthy u = Some name -> u = Some name /\ name <> empty.
Proof.
  destruct u as [[|c r]|]; cbn; intros H; try discriminate.
  injection H as <-. split; [reflexivity | discriminate].
Qed.

(** Whatever the collaborators answer, a review reaches the store from the
    review route only after the lookup found the puzzle and the session
    resolved to a non-empty username. *)
Lemma post_review_appends_only_authenticated (req : Request) (w : W)
    (s : option Session) (p : Puzzle) (rv : Review) (out : Result unit) :
  In (EPuzzleReview p rv out)
     (calls (exec (post_review env builtins req) (arrive w s))) ->
  exists w1 u w2,
    store_get (parseInt (params_id req)) w = (Ok (Some p), w1) /\
    store_username (authId_or_empty s) w1 = (Ok u, w2) /\
    truthy u = Some (by_ rv) /\
    rv = review_of req (by_ rv) (Date_now builtins w2) /\
    out = fst (store_review p rv w2) /\
    In (EAuthUsername (authId_or_empty s) (Ok u))
       (calls (exec (post_review env builtins req) (arrive w s))).
Proof.
  unfold exec, post_review, puzzle_get, auth_username, puzzle_review,
    puzzle_next, new_Date, await, arrive. cbn.
  destruct (store_get (parseInt (params_id req)) w) as [[[q|]|e] w1] eqn:Hget;
    cbn; try (intros [H|[]]; discriminate).
  destruct (store_username (authId_or_empty s) w1) as [[u|e] w2] eqn:Hname;
    cbn; try (intros [H|[H|[]]]; discriminate).
  destruct (truthy u) as [name|] eqn:Hu; cbn;
    try (intros [H|[H|[]]]; discriminate).
  destruct (store_review q _ w2) as [[[]|e] w3] eqn:Hrev; cbn.
  - destruct (store_next w3) as [[[n|]|e] w4] eqn:Hnext; cbn;
      intros [H|[H|[H|[H|[]]]]]; try discriminate;
      injection H as <- <- <-; exists w1, u, w2; cbn;
      rewrite Hrev; repeat split; auto.
  - intros [H|[H|[H|[]]]]; try discriminate.
    injection H as <- <- <-. exists w1, u, w2. cbn.
    rewrite Hrev. repeat split; auto.
Qed.

(** *** Runs of the page routes *)

Lemma page_missing (r : Route) (req : Request) (w w1 : W) (s : option Session) :
  is_page_route r = true ->
  lookup env r req w = (Ok None, w1) ->
  handle env oauth builtins r req (arrive w s) =
  (Ok tt, left w1 s not_found [ELookup r req (Ok None)]).
Proof.
  intros Hr Hl. destruct r; try discriminate; cbn in Hl;
    unfold handle, get_root, get_puzzle, detached, puzzle_next, puzzle_get,
      req_session,
      await, arrive; cbn; rewrite Hl; reflexivity.
Qed.

Lemma page_rendered (r : Route) (req : Request) (w w1 w2 : W)
    (s : option Session) (p : Puzzle) (u : option string) :
  is_page_route r = true ->
  lookup env r req w = (Ok (Some p), w1) ->
  store_username (authId_or_empty s) w1 = (Ok u, w2) ->
  handle env oauth builtins r req (arrive w s) =
  (Ok tt, left w2 s
            match truthy u with
            | None => login_page
            | Some name => interactive_page builtins name p
            end
            [ELookup r req (Ok (Some p)); EAuthUsername (authId_or_empty s) (Ok u)]).
Proof.
  intros Hr Hl Hname. destruct r; try discriminate; cbn in Hl;
    unfold handle, get_root, get_puzzle, detached, renderPuzzle, puzzle_next,
      puzzle_get,
      auth_username, req_session, await, arrive; cbn; rewrite Hl; cbn;
    rewrite Hname; cbn; destruct (truthy u); reflexivity.
Qed.

(** *** Runs of logout and of the OAuth callback *)

Lemma logout_run (req : Request) (w : W) (sess : Session) :
  get_logout (Puzzle := Puzzle) (TokenData := TokenData) req (arrive w (Some sess)) =
  (Ok tt, left w (Some {| authId := Some empty |}) (redirect_to "/") []).
Proof. reflexivity. Qed.

(** Case analysis on the answers of the collaborators, in call order. *)
Ltac innermost x :=
  lazymatch x with
  | context [match _ with pair _ _ => _ end] => fail
  | context [match _ with Some _ => _ | None => _ end] => fail
  | _ => idtac
  end.

Ltac answers :=
  repeat (cbn;
          match goal with
          | |- context [match ?x with pair _ _ => _ end] =>
              innermost x; destruct x as [[?|?] ?] eqn:?
          | |- context [match ?x with Some _ => _ | None => _ end] =>
              innermost x; destruct x eqn:?
          end).

Ltac unfold_routes :=
  unfold exec, outcome, handle, get_root, get_puzzle, post_review, get_logout,
    get_auth, get_oauth_callback, detached, renderPuzzle, puzzle_get, puzzle_next,
    puzzle_review, auth_username, auth_save, oauth_getToken, oauth_getUserInfo,
    set_authId, req_session, new_Date, console_write, res_status, res_end,
    res_send, res_json, res_redirect, update_res, await, arrive.

(** Only the review route hands a review to the store. *)
Lemma review_only_from_review_route (r : Route) (req : Request) (w : W)
    (s : option Session) (p : Puzzle) (rv : Review) (out : Result unit) :
  In (EPuzzleReview p rv out)
     (calls (exec (handle env oauth builtins r req) (arrive w s))) ->
  r = POST_review.
Proof.
  destruct r; try reflexivity; unfold_routes; answers;
    cbn; intuition discriminate.
Qed.

(** *** The claims about the review route *)





(** *** The claims about the page routes and the session *)

(** C4: GET / and GET /puzzle/:id answer by one rule: 404 with no body when
    the lookup finds no puzzle; otherwise, when no username resolves from
    the session, the login document, in which there is no script and no
    [main] element; otherwise the interactive document, whose script boots
    the client from the JSON of [{username, puzzle}]. *)
Theorem page_routes_rendering_rule (r : Route) (req : Request) (w : W)
    (s : option Session) :
  r = GET_root \/ r = GET_puzzle ->
  let st := exec (handle env oauth builtins r req) (arrive w s) in
  (forall w1,
      lookup env r req w = (Ok None, w1) ->
      res st = {| statusCode := 404; body := Some BEnd |})
  /\ (forall p w1 u w2,
      lookup env r req w = (Ok (Some p), w1) ->
      store_username (authId_or_empty s) w1 = (Ok u, w2) ->
      truthy u = None ->
      res st = {| statusCode := 200; body := Some (BSend login_document) |})
  /\ (forall p w1 u w2 name,
      lookup env r req w = (Ok (Some p), w1) ->
      store_username (authId_or_empty s) w1 = (Ok u, w2) ->
      truthy u = Some name ->
      res st =
      {| statusCode := 200;
         body := Some (BSend (interactive_document
                   (JSON_stringify builtins
                      {| data_username := name; data_puzzle := p |}))) |})
  /\ contains "<script" login_document = false
  /\ contains "<main" login_document = false
  /\ contains "PuzzleValidator.start" login_document = false
  /\ (forall json,
      contains ("<script>PuzzleValidator.start(" ++ json ++ ")</script>")
        (interactive_document json) = true).
Proof.
  intros Hr st.
  assert (Hpage : is_page_route r = true) by (destruct Hr; subst r; reflexivity).
  assert (Hdoc : forall json, htmlPage (puzzle_content json) = interactive_document json).
  { intros json. unfold htmlPage, puzzle_content, interactive_document.
    repeat rewrite string_append_assoc. reflexivity. }
  subst st. unfold exec. repeat split.
  - intros w1 Hl. now rewrite (page_missing r req w w1 s Hpage Hl).
  - intros p w1 u w2 Hl Hu Ht.
    rewrite (page_rendered r req w w1 w2 s p u Hpage Hl Hu). cbn [snd left res].
    now rewrite Ht.
  - intros p w1 u w2 name Hl Hu Ht.
    rewrite (page_rendered r req w w1 w2 s p u Hpage Hl Hu). cbn [snd left res].
    rewrite Ht. unfold interactive_page. now rewrite Hdoc.
  - intros json.
    set (boot := ("<script>PuzzleValidator.start(" ++ json ++ ")</script>")%string).
    assert (E : interactive_document json =
                ((nl ++ "<html>" ++ nl ++
                  "  <head>" ++ nl ++
                  "    <title>Lichess Puzzle Validator</title>" ++ nl ++
                  "    <link href=" ++ dq ++ "/style.css" ++ dq ++ " rel=" ++ dq ++
                  "stylesheet" ++ dq ++ ">" ++ nl ++
                  "  </head>" ++ nl ++
                  "  <body>" ++ nl ++
                  "    " ++ nl ++ "    <main></main>" ++ nl ++
                  "    <script src=" ++ dq ++ "/dist/puzzle-validator.dev.js" ++ dq ++
                  "></script>" ++ nl ++ "    ") ++
                 boot ++ (nl ++ nl ++ "  </body>" ++ nl ++ "</html>"))%string).
    { unfold interactive_document, boot.
      repeat rewrite string_append_assoc. reflexivity. }
    rewrite E. apply contains_between.
Qed.

(** C5 (as the router behaves): for a session from which no username
    resolves (no session and an unset or empty authId all resolve the empty
    authId), the answer depends on the lookup first: 404 when it finds no
    puzzle; when it finds one, the login page for GET / and GET /puzzle/:id
    and 403 for POST /review/:id.  No review reaches the store. *)
Theorem unauthenticated_requests (r : Route) (req : Request) (w w1 w2 : W)
    (s : option Session) (po : option Puzzle) (u : option string) :
  has_lookup r = true ->
  lookup env r req w = (Ok po, w1) ->
  store_username (authId_or_empty s) w1 = (Ok u, w2) ->
  truthy u = None ->
  let st := exec (handle env oauth builtins r req) (arrive w s) in
  res st = match po, r with
           | None, _ => not_found
           | Some _, POST_review => forbidden
           | Some _, _ => login_page
           end
  /\ filter is_review (calls st) = []
  /\ (s = None \/ s = Some {| authId := None |} \/
      s = Some {| authId := Some empty |} ->
      authId_or_empty s = empty).
Proof.
  intros Hr Hl Hu Ht st. subst st. unfold exec.
  assert (Hs : s = None \/ s = Some {| authId := None |} \/
               s = Some {| authId := Some empty |} ->
               authId_or_empty s = empty)
    by (intros [->|[->| ->]]; reflexivity).
  destruct r; try discriminate Hr.
  - destruct po as [p|].
    + rewrite (page_rendered GET_root req w w1 w2 s p u eq_refl Hl Hu).
      cbn. rewrite Ht. auto.
    + rewrite (page_missing GET_root req w w1 s eq_refl Hl). cbn. auto.
  - destruct po as [p|].
    + rewrite (page_rendered GET_puzzle req w w1 w2 s p u eq_refl Hl Hu).
      cbn. rewrite Ht. auto.
    + rewrite (page_missing GET_puzzle req w w1 s eq_refl Hl). cbn. auto.
  - cbn in Hl. cbn [handle]. destruct po as [p|].
    + rewrite (post_review_unauthenticated req w w1 w2 s p u Hl Hu Ht).
      cbn. auto.
    + rewrite (post_review_missing req w w1 s Hl). cbn. auto.
Qed.

(** C6 (as the router behaves): GET /puzzle/:id and POST /review/:id do not
    check [:id].  The first call of either is the store's [get] on
    [parseInt] of it, which is [NaN] exactly when [:id], after the white
    space, sign and [0x] prefix that [parseInt] skips, does not go on with a
    digit; and when the store has no puzzle for that argument the request is
    answered 404 and nothing else is called. *)
Theorem lookup_receives_parseInt (r : Route) (req : Request) (w : W)
    (s : option Session) :
  r = GET_puzzle \/ r = POST_review ->
  let id := parseInt (params_id req) in
  let st := exec (handle env oauth builtins r req) (arrive w s) in
  (exists rest, calls st = EPuzzleGet id (fst (store_get id w)) :: rest)
  /\ (id = NaN <-> has_leading_digit (params_id req) = false)
  /\ (forall w1,
      store_get id w = (Ok None, w1) ->
      res st = not_found /\ calls st = [EPuzzleGet id (Ok None)]).
Proof.
  intros Hr id st. subst id st. split; [|split].
  - destruct Hr; subst r; unfold_routes; answers; cbn; eexists; reflexivity.
  - apply parseInt_NaN.
  - intros w1 Hg. unfold exec. destruct Hr; subst r.
    + rewrite (page_missing GET_puzzle req w w1 s eq_refl Hg). split; reflexivity.
    + cbn [handle]. rewrite (post_review_missing req w w1 s Hg). split; reflexivity.
Qed.

(** C7: when the token exchange, the user-info fetch or the credential save
    of GET /oauth-callback fails, the handler answers 500 with the fixed
    text "Authentication failed" (the same whatever the code, the token and
    the error), writes the error message to the server console only, and
    leaves the session as it was. *)
Theorem callback_failure (req : Request) (w w' : W) (s : option Session)
    (e : JsError) :
  ExchangeFails env oauth (query_code req) w e w' ->
  let run := get_oauth_callback env oauth req (arrive w s) in
  fst run = Ok tt /\
  res (snd run) = authentication_failed /\
  session (snd run) = s /\
  world (snd run) = w' /\
  console (snd run) = [ConsoleError ["Access Token Error"; message e]].
Proof.
  intros Hfail run. subst run.
  unfold get_oauth_callback, oauth_getToken, oauth_getUserInfo, auth_save,
    await, arrive. cbn.
  destruct Hfail as [Ht | t w1 Ht Hi | t w1 usr w2 Ht Hi Hs].
  - rewrite Ht. cbn. auto.
  - rewrite Ht. cbn. rewrite Hi. cbn. auto.
  - rewrite Ht. cbn. rewrite Hi. cbn. rewrite Hs. cbn. auto.
Qed.

(** C8: every review a route hands to the store has a non-empty [by], and
    [by] is the username the store resolved for the authId of the session
    of that request. *)
Theorem review_by_resolved_username (r : Route) (req : Request) (w : W)
    (s : option Session) (p : Puzzle) (rv : Review) (out : Result unit) :
  let st := exec (handle env oauth builtins r req) (arrive w s) in
  In (EPuzzleReview p rv out) (calls st) ->
  by_ rv <> empty /\
  In (EAuthUsername (authId_or_empty s) (Ok (Some (by_ rv)))) (calls st).
Proof.
  intros st Hin. subst st.
  pose proof (review_only_from_review_route r req w s p rv out Hin) as ->.
  cbn [handle] in *.
  destruct (post_review_appends_only_authenticated req w s p rv out Hin)
    as (w1 & u & w2 & _ & _ & Ht & _ & _ & Hu).
  apply truthy_Some in Ht. destruct Ht as [-> Hne]. auto.
Qed.

(** C9 (as the router behaves): GET /logout on a request that carries a
    session sets its authId to the empty string and redirects to /; doing it
    again changes nothing and throws nothing.  A later GET / with the
    cleared session gets the login page when the store has a next puzzle
    and resolves the empty authId to no username, and 404 when the store
    has no next puzzle. *)
Theorem logout_clears_session (req req' : Request) (w w' : W) (sess : Session) :
  let cleared := Some {| authId := Some empty |} in
  let after := exec (get_root env builtins req') (arrive w' cleared) in
  get_logout req (arrive w (Some sess)) =
    (Ok tt, left w cleared (redirect_to "/") (@nil (@Event Puzzle TokenData)))
  /\ get_logout req (arrive w cleared) =
    (Ok tt, left w cleared (redirect_to "/") (@nil (@Event Puzzle TokenData)))
  /\ (forall p w1 u w2,
      store_next w' = (Ok (Some p), w1) ->
      store_username empty w1 = (Ok u, w2) ->
      truthy u = None ->
      res after = login_page)
  /\ (forall w1, store_next w' = (Ok None, w1) -> res after = not_found).
Proof.
  cbv zeta. repeat split.
  - intros p w1 u w2 Hn Hu Ht.
    unfold exec, get_root, detached, renderPuzzle, puzzle_next, auth_username,
      req_session, await, arrive. cbn.
    rewrite Hn. cbn. rewrite Hu. cbn. rewrite Ht. reflexivity.
  - intros w1 Hn.
    unfold exec, get_root, detached, renderPuzzle, puzzle_next, req_session, await,
      arrive. cbn.
    rewrite Hn. reflexivity.
Qed.

End RouterFacts.

(** * The router on the in-memory store *)

(** The least-reviewed policy has no next puzzle only when the store holds
    no puzzle at all. *)
Lemma least_reviewed_absent (l : list Mem.Entry) :
  Mem.least_reviewed l = None <-> l = [].
Proof.
  split.
  - destruct l as [|e r]; [reflexivity|].
    intros H. exfalso. cbn [Mem.least_reviewed] in H.
    destruct (Mem.least_reviewed r) as [e'|]; [|discriminate].
    destruct (Nat.ltb _ _) in H; discriminate.
  - intros ->. reflexivity.
Qed.

Import Mem.







(** C4, run: the three answers of GET /puzzle/:id on the sample store: 404
    for an unknown puzzle, the login document for a visitor, the interactive
    document for alice. *)
Lemma page_routes_rendering_rule_witness :
  res (exec (handle (env LeastReviewed) oauth builtins GET_puzzle (plain_request "7"))
         (arrive db12 alice)) = {| statusCode := 404; body := Some BEnd |} /\
  res (exec (handle (env LeastReviewed) oauth builtins GET_puzzle (plain_request "2"))
         (arrive db12 anonymous)) =
    {| statusCode := 200; body := Some (BSend login_document) |} /\
  res (exec (handle (env LeastReviewed) oauth builtins GET_puzzle (plain_request "2"))
         (arrive db12 alice)) =
    {| statusCode := 200;
       body := Some (BSend (interactive_document
                 (JSON_stringify builtins
                    {| data_username := "alice"; data_puzzle := p2 |}))) |}.
Proof.
  split; [|split].
  - exact (proj1 (page_routes_rendering_rule (env LeastReviewed) oauth builtins
                    GET_puzzle (plain_request "7") db12 alice
                    (or_intror eq_refl))
             db12 eq_refl).
  - exact (proj1 (proj2 (page_routes_rendering_rule (env LeastReviewed) oauth
                           builtins GET_puzzle (plain_request "2") db12
                           anonymous (or_intror eq_refl)))
             p2 db12 None db12 eq_refl eq_refl eq_refl).
  - exact (proj1 (proj2 (proj2 (page_routes_rendering_rule (env LeastReviewed)
                           oauth builtins GET_puzzle (plain_request "2") db12
                           alice (or_intror eq_refl))))
             p2 db12 (Some "alice") db12 "alice" eq_refl eq_refl eq_refl).
Defined.

(** C5, run: a visitor without a session posts a review of puzzle 1 and is
    answered 403; nothing reaches the store. *)
Lemma unauthenticated_requests_witness :
  let st := exec (handle (env LeastReviewed) oauth builtins POST_review
                    (review_request "1" "5" "ok" "1500")) (arrive db12 None) in
  res st = forbidden /\
  filter is_review (calls st) = [] /\
  (@None Session = None \/ @None Session = Some {| authId := None |} \/
   @None Session = Some {| authId := Some empty |} ->
   authId_or_empty None = empty).
Proof.
  apply (unauthenticated_requests (env LeastReviewed) oauth builtins POST_review
           (review_request "1" "5" "ok" "1500") db12 db12 db12 None
           (Some p1) None);
    reflexivity.
Defined.

(** C5, the claim fails: a visitor without a session who asks for puzzle 99,
    which the store does not hold, gets 404 from GET /puzzle/99 and from
    POST /review/99: not the login page and not 403. *)
Lemma unauthenticated_missing_puzzle :
  let get99 := exec (handle (env LeastReviewed) oauth builtins GET_puzzle
                       (plain_request "99")) (arrive db12 None) in
  let post99 := exec (handle (env LeastReviewed) oauth builtins POST_review
                        (review_request "99" "5" "ok" "1500")) (arrive db12 None) in
  resolve (authId_or_empty None) db12 = None /\
  res get99 = not_found /\
  res get99 <> login_page /\
  res post99 = not_found /\
  statusCode (res post99) <> 403.
Proof.
  cbv zeta. repeat split; vm_compute; discriminate.
Qed.

(** C6, run: on the sample store the first call of GET /puzzle/2 is
    [get(2)]; GET /puzzle/7 calls [get(7)] and nothing else and is answered
    404. *)
Lemma lookup_receives_parseInt_witness :
  (exists rest,
      calls (exec (handle (env LeastReviewed) oauth builtins GET_puzzle
                     (plain_request "2")) (arrive db12 alice)) =
      EPuzzleGet (Num 2) (Ok (Some p2)) :: rest) /\
  (res (exec (handle (env LeastReviewed) oauth builtins GET_puzzle
                (plain_request "7")) (arrive db12 alice)) = not_found /\
   calls (exec (handle (env LeastReviewed) oauth builtins GET_puzzle
                  (plain_request "7")) (arrive db12 alice)) =
     [EPuzzleGet (Num 7) (Ok None)]).
Proof.
  split.
  - exact (proj1 (lookup_receives_parseInt (env LeastReviewed) oauth builtins
                    GET_puzzle (plain_request "2") db12 alice
                    (or_introl eq_refl))).
  - exact (proj2 (proj2 (lookup_receives_parseInt (env LeastReviewed) oauth
                           builtins GET_puzzle (plain_request "7") db12 alice
                           (or_introl eq_refl)))
             db12 eq_refl).
Defined.

(** C6, the claim fails: for GET /puzzle/abc and POST /review/abc the router
    calls the store's [get] with [NaN]. *)
Lemma lookup_called_with_NaN :
  is_integer_string "abc" = false /\
  calls (exec (handle (env LeastReviewed) oauth builtins GET_puzzle
                 (plain_request "abc")) (arrive db12 alice)) =
    [EPuzzleGet NaN (Ok None)] /\
  calls (exec (handle (env LeastReviewed) oauth builtins POST_review
                 (review_request "abc" "5" "ok" "1500")) (arrive db12 alice)) =
    [EPuzzleGet NaN (Ok None)].
Proof.
  repeat split.
Qed.

(** C7, run: the provider rejects the code "code-eve"; the answer is the
    fixed 500 and the visitor's session is unchanged. *)
Lemma callback_failure_witness :
  let run := get_oauth_callback (env LeastReviewed) oauth
               (callback_request "code-eve") (arrive db12 anonymous) in
  fst run = Ok tt /\
  res (snd run) = authentication_failed /\
  session (snd run) = anonymous /\
  world (snd run) = db12 /\
  console (snd run) = [ConsoleError ["Access Token Error"; "invalid_grant"]].
Proof.
  apply (callback_failure (env LeastReviewed) oauth
           (callback_request "code-eve") db12 db12 anonymous
           {| message := "invalid_grant" |}).
  apply token_exchange_fails. reflexivity.
Defined.

(** C8, run: the review stored for alice's request carries her name, which
    the store resolved from her authId. *)
Lemma review_by_resolved_username_witness :
  by_ (review_alice (Num 5) (Num 1500)) <> empty /\
  In (EAuthUsername "auth-t0" (Ok (Some "alice")))
     (calls (exec (handle (env LeastReviewed) oauth builtins POST_review
                     (review_request "1" "5" "ok" "1500")) (arrive db12 alice))).
Proof.
  apply (review_by_resolved_username (env LeastReviewed) oauth builtins
           POST_review (review_request "1" "5" "ok" "1500") db12 alice
           p1 (review_alice (Num 5) (Num 1500)) (Ok tt)).
  vm_compute. auto 10.
Defined.

(** C9, run: alice logs out, and her next GET / shows the login page. *)
Lemma logout_clears_session_witness :
  get_logout (plain_request empty) (arrive db12 alice) =
    (Ok tt, left db12 (Some {| authId := Some empty |}) (redirect_to "/")
              (@nil (@Event Puzzle string))) /\
  res (exec (get_root (env LeastReviewed) builtins (plain_request empty))
         (arrive db12 (Some {| authId := Some empty |}))) = login_page.
Proof.
  split.
  - apply (proj1 (logout_clears_session (env LeastReviewed) builtins
                    (plain_request empty) (plain_request empty) db12 db12
                    {| authId := Some "auth-t0" |})).
  - apply (proj1 (proj2 (proj2 (logout_clears_session (env LeastReviewed)
                           builtins (plain_request empty) (plain_request empty)
                           db12 db12 {| authId := Some "auth-t0" |}))))
      with (p := p1) (w1 := db12) (u := None) (w2 := db12); reflexivity.
Defined.

(** C9, the claim fails: on a store without puzzles, GET / after GET /logout
    is answered 404, not the login page. *)
Lemma logout_then_root_not_found :
  let st := exec (get_logout (Puzzle := Puzzle) (TokenData := string)
                    (plain_request empty)) (arrive db0 alice) in
  let after := exec (get_root (env LeastReviewed) builtins (plain_request empty))
                 (arrive (world st) (session st)) in
  session st = Some {| authId := Some empty |} /\
  res after = not_found /\
  res after <> login_page.
Proof.
  cbv zeta. repeat split. vm_compute. discriminate.
Qed.

(** * Further properties of the routes *)

Section RouteInvariants.

Context {Puzzle TokenData W : Type}.
Variables (env : @Env Puzzle TokenData W)
          (oauth : @OAuth TokenData W)
          (builtins : @Builtins Puzzle W).

Ltac scrutinee_is_call x :=
  lazymatch x with
  | context [match _ with pair _ _ => _ end] => fail
  | context [match _ with Some _ => _ | None => _ end] => fail
  | _ => idtac
  end.

(** Splits on the answer of every awaited call and on every test. *)
Ltac split_answers :=
  repeat (cbn;
          match goal with
          | |- context [match ?x with pair _ _ => _ end] =>
              scrutinee_is_call x; destruct x as [[?|?] ?] eqn:?
          | |- context [match ?x with Some _ => _ | None => _ end] =>
              scrutinee_is_call x; destruct x eqn:?
          end).

Ltac open_routes :=
  unfold exec, outcome, handle, get_root, get_puzzle, post_review, get_logout,
    get_auth, get_oauth_callback, detached, renderPuzzle, puzzle_get, puzzle_next,
    puzzle_review, auth_username, auth_save, oauth_getToken, oauth_getUserInfo,
    set_authId, req_session, new_Date, console_write, res_status, res_end,
    res_send, res_json, res_redirect, update_res, await, arrive.

(** X1: every run ends in one of three ways.  The handler completes and has
    answered; or the handler throws and has written nothing; or, in GET /
    and GET /puzzle/:id only, the username resolution inside the unawaited
    [renderPuzzle] was rejected: the handler completes all the same, nothing
    is written and the rejection is left unhandled. *)
Theorem answered_unless_rejected (r : Route) (req : Request) (w : W)
    (s : option Session) :
  let run := handle env oauth builtins r req (arrive w s) in
  (fst run = Ok tt /\
   body (res (snd run)) <> None /\
   unhandled (snd run) = [])
  \/
  (exists e,
      fst run = Throw e /\
      res (snd run) = fresh_response /\
      unhandled (snd run) = [])
  \/
  (exists e a cs,
      fst run = Ok tt /\
      res (snd run) = fresh_response /\
      unhandled (snd run) = [e] /\
      is_page_route r = true /\
      calls (snd run) = (cs ++ [EAuthUsername a (Throw e)])%list).
Proof.
  destruct r; open_routes; split_answers; cbn;
    solve [ left; repeat split; discriminate
          | right; left; eexists; repeat split
          | right; right;
            lazymatch goal with
            | |- context [ [?ev; EAuthUsername ?a (Throw ?e)] ] =>
                exists e, a, [ev]; repeat split
            end ].
Qed.

(** X2: the awaited calls of a run are, in order, an initial part of the
    calls of its route, whatever the collaborators answer. *)
Theorem calls_follow_plan (r : Route) (req : Request) (w : W)
    (s : option Session) :
  exists rest,
    plan r =
    (map kind (calls (exec (handle env oauth builtins r req) (arrive w s))) ++ rest)%list.
Proof.
  destruct r; open_routes; split_answers; cbn; eexists; reflexivity.
Qed.


(** X4: only GET /logout and GET /oauth-callback change the session of the
    request, and no route gives a session to a request that has none. *)
Theorem session_assigned_only_by_logout_and_callback (r : Route) (req : Request)
    (w : W) (s : option Session) :
  let st := exec (handle env oauth builtins r req) (arrive w s) in
  (assigns_session r = false -> session st = s) /\
  (s = None -> session st = None).
Proof.
  destruct r; open_routes; split_answers; cbn; split;
    solve [reflexivity | discriminate | intros _; reflexivity
          | intros H; assumption | intros H; discriminate H ].
Qed.

(** X5: GET /oauth-callback never throws and answers in one of two ways:
    a redirect to / with the session's authId set to what the store's save
    returned, or the fixed 500 with the session as it was. *)
Theorem callback_always_answers (req : Request) (w : W) (s : option Session) :
  let run := get_oauth_callback env oauth req (arrive w s) in
  fst run = Ok tt /\
  ((res (snd run) = redirect_to "/" /\
    s <> None /\
    console (snd run) = [] /\
    exists t name a,
      In (EAuthSave t name (Ok a)) (calls (snd run)) /\
      session (snd run) = Some {| authId := Some a |})
   \/
   (res (snd run) = authentication_failed /\
    session (snd run) = s /\
    exists e, console (snd run) = [ConsoleError ["Access Token Error"; message e]])).
Proof.
  open_routes; split_answers; cbn; split; try reflexivity;
    solve [ left; repeat split; try discriminate;
            do 3 eexists; split; [cbn; auto 10 | reflexivity]
          | right; repeat split; eexists (Build_JsError _); reflexivity ].
Qed.

(** X6: a credential reaches the store's save only from GET /oauth-callback,
    and then it is the token the provider issued for the code of the request
    together with the username the provider reported for that token. *)
Theorem credential_saved_from_provider (r : Route) (req : Request) (w : W)
    (s : option Session) (t : TokenData) (name : string) (out : Result string) :
  let st := exec (handle env oauth builtins r req) (arrive w s) in
  In (EAuthSave t name out) (calls st) ->
  r = GET_oauth_callback /\
  exists tok usr,
    In (EGetToken (query_code req) (Ok tok)) (calls st) /\
    In (EGetUserInfo tok (Ok usr)) (calls st) /\
    t = token_data tok /\
    name = user_username usr.
Proof.
  destruct r; open_routes; split_answers; cbn; intros H;
    repeat (destruct H as [H|H]; try discriminate H); try contradiction;
    injection H as <- <- <-; (split; [reflexivity|]);
    do 2 eexists; repeat split; auto 10.
Qed.

(** X7: when the request carries no session object, GET /oauth-callback
    still exchanges the code and saves the credential, and only then fails:
    the store keeps the credential, the answer is the fixed 500 and no
    session comes to exist. *)
Theorem callback_without_session (req : Request) (w w1 w2 w3 : W)
    (tok : AccessToken) (usr : User) (a : string) :
  getToken oauth (query_code req) w = (Ok tok, w1) ->
  getUserInfo oauth tok w1 = (Ok usr, w2) ->
  save (auth (mongo env)) (token_data tok) (user_username usr) w2 = (Ok a, w3) ->
  let run := get_oauth_callback env oauth req (arrive w None) in
  fst run = Ok tt /\
  world (snd run) = w3 /\
  calls (snd run) =
    [EGetToken (query_code req) (Ok tok);
     EGetUserInfo tok (Ok usr);
     EAuthSave (token_data tok) (user_username usr) (Ok a)] /\
  res (snd run) = authentication_failed /\
  session (snd run) = None.
Proof.
  intros Ht Hi Hs. open_routes. cbn.
  rewrite Ht. cbn. rewrite Hi. cbn. rewrite Hs. cbn. auto 10.
Qed.

(** X8: the three routes that look a puzzle up read the session only through
    [session?.authId || '']: two sessions with the same value of it get the
    same outcome, response, calls and world. *)
Theorem session_read_through_authId (r : Route) (req : Request) (w : W)
    (s1 s2 : option Session) :
  has_lookup r = true ->
  authId_or_empty s1 = authId_or_empty s2 ->
  let run1 := handle env oauth builtins r req (arrive w s1) in
  let run2 := handle env oauth builtins r req (arrive w s2) in
  fst run1 = fst run2 /\
  res (snd run1) = res (snd run2) /\
  calls (snd run1) = calls (snd run2) /\
  world (snd run1) = world (snd run2).
Proof.
  intros Hr Hs. destruct r; try discriminate Hr; open_routes;
    repeat (cbn -[authId_or_empty]; rewrite ?Hs;
            match goal with
            | |- context [match ?x with pair _ _ => _ end] =>
                scrutinee_is_call x; destruct x as [[?|?] ?] eqn:?
            | |- context [match ?x with Some _ => _ | None => _ end] =>
                scrutinee_is_call x; destruct x eqn:?
            end);
    cbn -[authId_or_empty]; rewrite ?Hs; auto.
Qed.

(** X9: a username is resolved at most once in a run, and only for the
    authId of the requesting session (the empty string when it has none). *)
Theorem username_resolved_for_own_authId (r : Route) (req : Request) (w : W)
    (s : option Session) (a : string) (out : Result (option string)) :
  let st := exec (handle env oauth builtins r req) (arrive w s) in
  In (EAuthUsername a out) (calls st) ->
  a = authId_or_empty s /\
  has_lookup r = true /\
  List.length (filter (fun e => match kind e with KUsername => true | _ => false end)
                 (calls st)) = 1%nat.
Proof.
  destruct r; open_routes; split_answers; cbn; intros H;
    repeat (destruct H as [H|H]; try discriminate H); try contradiction;
    injection H as <- <-; auto.
Qed.

(** X10: the status of every answer is one of the codes of its route: 200
    or 404 for the pages, 200, 403 or 404 for a review, 302 for logout and
    auth, 302 or 500 for the OAuth callback. *)
Theorem status_of_route (r : Route) (req : Request) (w : W) (s : option Session) :
  let st := exec (handle env oauth builtins r req) (arrive w s) in
  body (res st) <> None ->
  In (statusCode (res st)) (statuses r).
Proof.
  destruct r; open_routes; split_answers; cbn; intros H;
    solve [ exfalso; apply H; reflexivity | auto 10 ].
Qed.

(** X11: a review is handed to the store with the query of the request as
    it came: the comment unchanged, score and rating through [parseInt]; a
    missing score or rating is [NaN] and a missing comment stays
    [undefined]. *)
Theorem review_carries_the_query (r : Route) (req : Request) (w : W)
    (s : option Session) (p : Puzzle) (rv : Review) (out : Result unit) :
  let st := exec (handle env oauth builtins r req) (arrive w s) in
  In (EPuzzleReview p rv out) (calls st) ->
  comment rv = query_comment req /\
  score rv = parseInt (ToString (query_score req)) /\
  rating rv = parseInt (ToString (query_rating req)) /\
  (query_score req = QUndefined -> score rv = NaN) /\
  (query_rating req = QUndefined -> rating rv = NaN) /\
  (query_comment req = QUndefined -> comment rv = QUndefined).
Proof.
  intros st Hin. subst st.
  pose proof (review_only_from_review_route env oauth builtins r req w s p rv out Hin) as ->.
  cbn [handle] in Hin.
  destruct (post_review_appends_only_authenticated env builtins req w s p rv out Hin)
    as (w1 & u & w2 & _ & _ & _ & Hrv & _).
  rewrite Hrv. cbn. repeat split.
  - intros ->. reflexivity.
  - intros ->. reflexivity.
  - intros ->. reflexivity.
Qed.

End RouteInvariants.

(** * Properties of the client *)

Section FrontFacts.

Import Front.

Context {Data Ctrl VNode Element BW : Type}.
Variable pg : @Page Data Ctrl VNode Element BW.

Lemma press_keeps_bindings (k : string) (e : KeyboardEvent)
    (st : @St VNode BW) :
  bindings (snd (press k e st)) = bindings st.
Proof.
  unfold press. destruct (bound k (bindings st)) as [cb|]; [|reflexivity].
  unfold lift. destruct (cb e (inner st)). reflexivity.
Qed.

Lemma press_swallowed (ctrl : Ctrl) (k : string) (e : KeyboardEvent)
    (st : @St VNode BW) :
  installed pg ctrl (bindings st) ->
  swallowed (k, e) = true ->
  press k e st = (Ok tt, st).
Proof.
  intros (_ & _ & Hb & He & _) Hs. unfold swallowed in Hs. cbn in Hs.
  apply andb_prop in Hs. destruct Hs as [Hrep Hk].
  apply orb_prop in Hk. unfold press.
  destruct Hk as [Hk|Hk]; apply String.eqb_eq in Hk; subst k;
    [rewrite He | rewrite Hb]; unfold lift, noRepeat; rewrite Hrep; cbn;
    destruct st; reflexivity.
Qed.

(** X12: [start] binds its five keys or none.  When it completes, the page
    had a [main] element, [vnode] is assigned and the five callbacks are in
    place; when it throws (as it does on a page without [main]) the bindings
    are as they were. *)
Theorem start_binds_all_or_nothing (data : Data) (st : @St VNode BW) :
  let run := start pg data st in
  (fst run = Ok tt /\
   querySelector pg "main" (page (inner st)) <> None /\
   vnode (inner (snd run)) <> None /\
   exists ctrl, installed pg ctrl (bindings (snd run)))
  \/
  (exists e, fst run = Throw e /\ bindings (snd run) = bindings st).
Proof.
  unfold start, lift, on_page, clear_element, patch_element, assign_vnode,
    redraw, read_vnode, Mousetrap_bind, on_page. cbn.
  destruct (Ctrl_new pg data _ (inner st)) as [[ctrl|e] i1]; cbn;
    [|right; eexists; split; reflexivity].
  destruct (view pg ctrl (page i1)) as [[tree|e] b2]; cbn;
    [|right; eexists; split; reflexivity].
  destruct (querySelector pg "main" (page (inner st))) as [el|]; cbn;
    [|right; eexists; split; reflexivity].
  destruct (patch pg (TElement el) tree _) as [[v|e] b3]; cbn;
    [|right; eexists; split; reflexivity].
  destruct (view pg ctrl b3) as [[tree2|e] b4]; cbn;
    [|right; eexists; split; reflexivity].
  destruct (patch pg (TVNode v) tree2 b4) as [[v2|e] b5]; cbn;
    [|right; eexists; split; reflexivity].
  left. repeat split; try discriminate.
  exists ctrl. repeat split.
Qed.

(** X13: once the callbacks of [start] are in place, a held Enter or
    Backspace does nothing: a sequence of key events acts as the same
    sequence without them.  An Enter that is not held calls
    [ctrl.review(true)] and a Backspace [ctrl.review(false)]. *)
Theorem held_keys_are_swallowed (ctrl : Ctrl)
    (es : list (string * KeyboardEvent)) (st : @St VNode BW) :
  installed pg ctrl (bindings st) ->
  presses es st = presses (filter (fun ke => negb (swallowed ke)) es) st /\
  (forall e, repeat e = false ->
     press "enter" e st = lift (review pg ctrl true (redraw pg ctrl)) st /\
     press "backspace" e st = lift (review pg ctrl false (redraw pg ctrl)) st).
Proof.
  intros Hin. split.
  - revert st Hin. induction es as [|[k e] es IH]; intros st Hin; [reflexivity|].
    cbn [filter presses]. destruct (swallowed (k, e)) eqn:Hs; cbn [negb].
    + rewrite (press_swallowed ctrl k e st Hin Hs). cbn [snd]. now apply IH.
    + cbn [presses]. apply IH. now rewrite press_keeps_bindings.
  - intros e He. destruct Hin as (_ & _ & Hb & Hen & _).
    unfold press. rewrite Hen, Hb. unfold noRepeat. rewrite He. split; reflexivity.
Qed.

(** X14: with the callbacks of [start] in place and no [a.analyse] link in
    the document, the key [a] throws and changes nothing. *)
Theorem analyse_without_link (ctrl : Ctrl) (e : KeyboardEvent)
    (st : @St VNode BW) :
  installed pg ctrl (bindings st) ->
  querySelector pg "a.analyse" (page (inner st)) = None ->
  exists err, press "a" e st = (Throw err, st).
Proof.
  intros (_ & _ & _ & _ & Ha) Hq. unfold press. rewrite Ha.
  unfold lift, click_analyse. rewrite Hq. destruct st. eexists. reflexivity.
Qed.

End FrontFacts.

(** * The further properties on the in-memory store and the sample page *)


(** X4, run: a review leaves alice's session as it was. *)
Lemma session_assigned_only_by_logout_and_callback_witness :
  session (exec (handle (env LeastReviewed) oauth builtins POST_review
                   (review_request "1" "5" "ok" "1500")) (arrive db12 alice)) = alice.
Proof.
  apply (proj1 (session_assigned_only_by_logout_and_callback (env LeastReviewed)
                  oauth builtins POST_review
                  (review_request "1" "5" "ok" "1500") db12 alice)).
  reflexivity.
Defined.

(** X6, run: the credential saved for the code "code-bob" is bob's token
    and bob's name, as the provider gave them. *)
Lemma credential_saved_from_provider_witness :
  let st := exec (handle (env LeastReviewed) oauth builtins GET_oauth_callback
                    (callback_request "code-bob")) (arrive db12 anonymous) in
  GET_oauth_callback = GET_oauth_callback /\
  exists tok usr,
    In (EGetToken (QString "code-bob") (Ok tok)) (calls st) /\
    In (EGetUserInfo tok (Ok usr)) (calls st) /\
    "tok-bob" = token_data tok /\
    "bob" = user_username usr.
Proof.
  apply (credential_saved_from_provider (env LeastReviewed) oauth builtins
           GET_oauth_callback (callback_request "code-bob") db12 anonymous
           "tok-bob" "bob" (Ok "auth-tok-bob")).
  vm_compute. auto 10.
Defined.

(** X7, run: the code "code-bob" arrives on a request without a session:
    bob's credential is stored and the answer is the fixed 500. *)
Lemma callback_without_session_witness :
  let run := get_oauth_callback (env LeastReviewed) oauth
               (callback_request "code-bob") (arrive db12 None) in
  fst run = Ok tt /\
  world (snd run) = store "auth-tok-bob" "bob" db12 /\
  calls (snd run) =
    [EGetToken (QString "code-bob") (Ok {| token_data := "tok-bob" |});
     EGetUserInfo {| token_data := "tok-bob" |} (Ok {| user_username := "bob" |});
     EAuthSave "tok-bob" "bob" (Ok "auth-tok-bob")] /\
  res (snd run) = authentication_failed /\
  session (snd run) = None.
Proof.
  apply (callback_without_session (env LeastReviewed) oauth
           (callback_request "code-bob") db12 db12 db12
           (store "auth-tok-bob" "bob" db12)
           {| token_data := "tok-bob" |} {| user_username := "bob" |}
           "auth-tok-bob");
    reflexivity.
Defined.

(** X8, run: a request without a session and one whose session has an empty
    authId are answered alike. *)
Lemma session_read_through_authId_witness :
  let run1 := handle (env LeastReviewed) oauth builtins GET_puzzle
                (plain_request "1") (arrive db12 None) in
  let run2 := handle (env LeastReviewed) oauth builtins GET_puzzle
                (plain_request "1")
                (arrive db12 (Some {| authId := Some empty |})) in
  fst run1 = fst run2 /\
  res (snd run1) = res (snd run2) /\
  calls (snd run1) = calls (snd run2) /\
  world (snd run1) = world (snd run2).
Proof.
  apply (session_read_through_authId (env LeastReviewed) oauth builtins
           GET_puzzle (plain_request "1") db12 None
           (Some {| authId := Some empty |}));
    reflexivity.
Defined.

(** X9, run: the username resolved while alice reviews is the one of her
    authId. *)
Lemma username_resolved_for_own_authId_witness :
  "auth-t0" = authId_or_empty alice /\
  has_lookup POST_review = true /\
  List.length
    (filter (fun e => match kind e with KUsername => true | _ => false end)
       (calls (exec (handle (env LeastReviewed) oauth builtins POST_review
                       (review_request "1" "5" "ok" "1500"))
                 (arrive db12 alice)))) = 1%nat.
Proof.
  apply (username_resolved_for_own_authId (env LeastReviewed) oauth builtins
           POST_review (review_request "1" "5" "ok" "1500") db12 alice
           "auth-t0" (Ok (Some "alice"))).
  vm_compute. auto 10.
Defined.

(** X10, run: the answer to a visitor's review is a 403, one of the codes
    of the review route. *)
Lemma status_of_route_witness :
  In (statusCode (res (exec (handle (env LeastReviewed) oauth builtins POST_review
                               (review_request "1" "5" "ok" "1500"))
                         (arrive db12 anonymous))))
     (statuses POST_review).
Proof.
  apply (status_of_route (env LeastReviewed) oauth builtins POST_review
           (review_request "1" "5" "ok" "1500") db12 anonymous).
  vm_compute. discriminate.
Defined.

(** X11, run: alice posts /review/1 with no query at all: the stored review
    has score and rating [NaN] and no comment. *)
Lemma review_carries_the_query_witness :
  let rv := {| by_ := "alice"; at_ := 1600000000000; score := NaN;
               comment := QUndefined; rating := NaN |} in
  In (EPuzzleReview p1 rv (Ok tt))
     (calls (exec (handle (env LeastReviewed) oauth builtins POST_review
                     (plain_request "1")) (arrive db12 alice))) /\
  comment rv = QUndefined /\
  score rv = parseInt "undefined".
Proof.
  cbv zeta.
  assert (H : In (EPuzzleReview p1
                    {| by_ := "alice"; at_ := 1600000000000; score := NaN;
                       comment := QUndefined; rating := NaN |} (Ok tt))
                 (calls (exec (handle (env LeastReviewed) oauth builtins POST_review
                                 (plain_request "1")) (arrive db12 alice))))
    by (vm_compute; auto 10).
  split; [exact H|].
  destruct (review_carries_the_query (env LeastReviewed) oauth builtins
              POST_review (plain_request "1") db12 alice p1 _ (Ok tt) H)
    as (Hc & Hs & _).
  split; [exact Hc | exact Hs].
Defined.

(** X12, runs: on the sample page [start] completes with the document drawn
    twice; without the [main] element it throws and binds nothing. *)
Example start_on_the_sample_page :
  fst (Front.start Toy.page 3 (Toy.loaded true)) = Ok tt /\
  Toy.drawings
    (Front.page (Front.inner (snd (Front.start Toy.page 3 (Toy.loaded true))))) = 2%nat /\
  map fst (Front.bindings (snd (Front.start Toy.page 3 (Toy.loaded true)))) =
    ["a"; "enter"; "backspace"; "right"; "left"] /\
  fst (Front.start Toy.page 3 (Toy.loaded false)) =
    Throw {| message := "Cannot set properties of null" |} /\
  Front.bindings (snd (Front.start Toy.page 3 (Toy.loaded false))) = [].
Proof.
  repeat split.
Qed.

(** X13, run: Enter pressed and held, then Backspace held, then Left held:
    one verdict is submitted, and the cursor moves once. *)
Lemma held_keys_are_swallowed_witness :
  let st := snd (Front.start Toy.page 3 (Toy.loaded true)) in
  Front.presses
    [Toy.key "enter" false; Toy.key "enter" true; Toy.key "enter" true;
     Toy.key "backspace" true; Toy.key "left" true] st =
  Front.presses [Toy.key "enter" false; Toy.key "left" true] st.
Proof.
  cbv zeta.
  apply (proj1 (held_keys_are_swallowed Toy.page tt
                  [Toy.key "enter" false; Toy.key "enter" true;
                   Toy.key "enter" true; Toy.key "backspace" true;
                   Toy.key "left" true]
                  (snd (Front.start Toy.page 3 (Toy.loaded true)))
                  (conj eq_refl (conj eq_refl (conj eq_refl (conj eq_refl eq_refl)))))).
Defined.

(** X14, run: the callbacks are in place and the document has no analyse
    link: the key [a] throws and the state stays as it was. *)
Lemma analyse_without_link_witness :
  let st := {| Front.inner := Front.inner (Toy.loaded true);
               Front.bindings :=
                 Front.bindings (snd (Front.start Toy.page 3 (Toy.loaded true))) |} in
  exists err, Front.press "a" {| Front.repeat := false |} st = (Throw err, st).
Proof.
  cbv zeta.
  apply (analyse_without_link Toy.page tt {| Front.repeat := false |}
           {| Front.inner := Front.inner (Toy.loaded true);
              Front.bindings :=
                Front.bindings (snd (Front.start Toy.page 3 (Toy.loaded true))) |}
           (conj eq_refl (conj eq_refl (conj eq_refl (conj eq_refl eq_refl))))
           eq_refl).
Defined.

(** * The page that boots the client *)

(** X15: the interactive page always has the [main] element that [start]
    looks for, and its script calls [PuzzleValidator.start] on the boot
    payload exactly as [JSON.stringify] printed it: the router escapes
    nothing in it. *)
Theorem interactive_page_boots_client {Puzzle W : Type}
    (b : @Builtins Puzzle W) (name : string) (p : Puzzle) :
  let json := JSON_stringify b {| data_username := name; data_puzzle := p |} in
  exists html,
    interactive_page b name p = {| statusCode := 200; body := Some (BSend html) |} /\
    contains "<main></main>" html = true /\
    contains ("<script>PuzzleValidator.start(" ++ json ++ ")</script>") html = true.
Proof.
  intros json. eexists. split; [reflexivity|]. fold json. split.
  - vm_compute. reflexivity.
  - set (boot := ("<script>PuzzleValidator.start(" ++ json ++ ")</script>")%string).
    assert (E : htmlPage (puzzle_content json) =
                ((nl ++ "<html>" ++ nl ++
                  "  <head>" ++ nl ++
                  "    <title>Lichess Puzzle Validator</title>" ++ nl ++
                  "    <link href=" ++ dq ++ "/style.css" ++ dq ++ " rel=" ++ dq ++
                  "stylesheet" ++ dq ++ ">" ++ nl ++
                  "  </head>" ++ nl ++
                  "  <body>" ++ nl ++
                  "    " ++ nl ++ "    <main></main>" ++ nl ++
                  "    <script src=" ++ dq ++ "/dist/puzzle-validator.dev.js" ++ dq ++
                  "></script>" ++ nl ++ "    ") ++
                 boot ++ (nl ++ nl ++ "  </body>" ++ nl ++ "</html>"))%string).
    { unfold htmlPage, puzzle_content, boot.
      repeat rewrite string_append_assoc. reflexivity. }
    rewrite E. apply contains_between.
Qed.
